(** * SyncMind-Ai: probe runners and the load-test route

    A shallow embedding of
    - [backend/Runners/k6runner.js]         (module [K6Runner]),
    - [backend/Runners/playwrightRunner.js] (module [PlaywrightRunner]),
    - the [POST /api/load-test] handler     (module [LoadTestRoute]).

    JavaScript numbers are IEEE-754 binary64 values and are modelled by the
    kernel's primitive floats, so that every arithmetic step rounds as it
    does in the program.  Integer quantities that the program only prints or
    compares (clock readings, image counts, the DevOps score) are kept in
    [Z] or [nat] and converted where the program does arithmetic on them.

    Strings are sequences of 8-bit characters, read as the code units below
    256 of a JavaScript string; the few fixed texts of the program with
    characters outside that range are written in UTF-8 and never inspected. *)

From Stdlib Require Import ZArith List String Ascii Bool Lia.
From Stdlib Require Import Floats.
From Stdlib Require DecimalString DecimalN DecimalPos.
Import ListNotations.

Set Warnings "-inexact-float,-register-all,-abstract-large-number".

Open Scope string_scope.
Open Scope list_scope.

(* ------------------------------------------------------------------ *)
(** ** JavaScript numbers *)

Module JS.

(** [Number.isFinite]: neither NaN nor an infinity. *)
Definition isFinite (x : float) : bool := PrimFloat.is_finite x.

(** The integer nearest to [m * 2^e]; of two equally near integers the
    larger one.  This is the rounding of both [Math.round] and [toFixed]. *)
Definition round_half_up (m e : Z) : Z :=
  if (0 <=? e)%Z then m * 2 ^ e
  else (2 * m + 2 ^ (- e)) / 2 ^ (1 - e).

(** The double nearest to the integer [n] (what reading the decimal
    numeral of [n] gives). *)
Definition of_Z (n : Z) : float :=
  SF2Prim (binary_normalize prec emax n 0 false).

(** The double nearest to [n / d] for positive [n] and [d], with sign [s]
    (what reading the decimal numeral [n / 10^k] gives when [d = 10^k]). *)
Definition of_ratio (s : bool) (n d : positive) : float :=
  SF2Prim (SFdiv prec emax (S754_finite s n 0) (S754_finite false d 0)).

(** [Math.round x]: NaN, the infinities and the zeros are returned as they
    are; any other value goes to the nearest integer, halves upwards, and a
    zero result keeps the sign of [x]. *)
Definition Math_round (x : float) : float :=
  match Prim2SF x with
  | S754_finite s m e =>
      let n := round_half_up (cond_Zopp s (Zpos m)) e in
      if (n =? 0)%Z then (if s then neg_zero else zero) else of_Z n
  | _ => x
  end.

(** [Math.max a b]: NaN as soon as one argument is NaN, and [+0] is larger
    than [-0]. *)
Definition Math_max (a b : float) : float :=
  if is_nan a || is_nan b then nan
  else if (a <? b)%float then b
  else if (b <? a)%float then a
  else if get_sign a then b else a.

(** [Math.min a b], with [-0] smaller than [+0]. *)
Definition Math_min (a b : float) : float :=
  if is_nan a || is_nan b then nan
  else if (a <? b)%float then a
  else if (b <? a)%float then b
  else if get_sign a then a else b.

(** [Number(x.toFixed(digits))] (equally [parseFloat(x.toFixed(digits))]).
    [toFixed] takes the integer [n] nearest to [|x| * 10^digits] (the larger
    one on a tie), prints [n / 10^digits] behind the sign of [x], and the
    numeral is read back as the nearest double.  From [1e21] on, and for NaN
    and the infinities, [toFixed] prints the number itself, which reads back
    unchanged; both zeros print as an unsigned zero. *)
Definition toFixed_number (digits : nat) (x : float) : float :=
  match Prim2SF x with
  | S754_finite s m e =>
      if (abs x <? 1e21)%float then
        match round_half_up (Zpos m * 10 ^ Z.of_nat digits) e with
        | Zpos n => of_ratio s n (Z.to_pos (10 ^ Z.of_nat digits))
        | _ => if s then neg_zero else zero
        end
      else x
  | S754_zero _ => zero
  | _ => x
  end.

End JS.

(* ------------------------------------------------------------------ *)
(** ** JavaScript values, strings and promises *)

(** The values that cross the probe boundaries: parsed JSON documents, the
    audit objects and the reply of the narrative service. *)
Inductive jsval : Type :=
| JUndefined
| JNull
| JBool (b : bool)
| JNum (x : float)
| JStr (s : string)
| JArr (items : list jsval)
| JObj (fields : list (string * jsval)).

(** Truthiness, as tested by [if (v)], [!v], [a || b] and [a && b]. *)
Definition truthy (v : jsval) : bool :=
  match v with
  | JUndefined | JNull => false
  | JBool b => b
  | JNum x => negb (is_nan x || is_zero x)
  | JStr s => negb (s =? "")
  | JArr _ | JObj _ => true
  end.

(** Property read [o.k] on an object whose keys are distinct; a missing
    property reads as [undefined], and so does any property of a number, a
    boolean or a string that the program reads here. *)
Fixpoint lookup (k : string) (fields : list (string * jsval)) : jsval :=
  match fields with
  | [] => JUndefined
  | (k', v) :: rest => if k' =? k then v else lookup k rest
  end.

Definition get (o : jsval) (k : string) : jsval :=
  match o with
  | JObj fields => lookup k fields
  | _ => JUndefined
  end.

(** A promise that has settled. *)
Inductive outcome (A : Type) : Type :=
| Resolved (a : A)
| Rejected (message : string).
Arguments Resolved {A} a.
Arguments Rejected {A} message.

(** A promise: settled, or never settled. *)
Inductive promise (A : Type) : Type :=
| Settled (o : outcome A)
| Pending.
Arguments Settled {A} o.
Arguments Pending {A}.


(** [p.catch(e => null)]: a rejection becomes the value [null]. *)
Definition catch_null {A} (p : promise A) : promise (option A) :=
  match p with
  | Settled (Resolved a) => Settled (Resolved (Some a))
  | Settled (Rejected _) => Settled (Resolved None)
  | Pending => Pending
  end.

(** [Promise.all] of three promises: rejected as soon as one of them is,
    resolved once all three are, pending otherwise. *)
Definition all3 {A B C} (a : promise A) (b : promise B) (c : promise C)
  : promise (A * B * C) :=
  match a, b, c with
  | Settled (Rejected m), _, _ => Settled (Rejected m)
  | _, Settled (Rejected m), _ => Settled (Rejected m)
  | _, _, Settled (Rejected m) => Settled (Rejected m)
  | Settled (Resolved x), Settled (Resolved y), Settled (Resolved z) =>
      Settled (Resolved (x, y, z))
  | _, _, _ => Pending
  end.

Module Str.

(** Decimal numeral of a non-negative integer, as [`${n}`] prints it. *)
Definition of_N (n : N) : string :=
  DecimalString.NilZero.string_of_uint (N.to_uint n).

(** White space and line terminators of ECMAScript, as [trim] strips them.
    A character of a model string is a code unit below 256; in that range
    they are the code units 9 to 13, 32 and 160 (no-break space). *)
Definition is_space (c : ascii) : bool :=
  let n := nat_of_ascii c in
  ((9 <=? n) && (n <=? 13))%nat || (n =? 32)%nat || (n =? 160)%nat.

Fixpoint trim_start (s : string) : string :=
  match s with
  | String c rest => if is_space c then trim_start rest else s
  | EmptyString => EmptyString
  end.

Fixpoint rev_onto (s acc : string) : string :=
  match s with
  | String c rest => rev_onto rest (String c acc)
  | EmptyString => acc
  end.

Definition rev (s : string) : string := rev_onto s "".

(** [s.trim()] *)
Definition trim (s : string) : string :=
  rev (trim_start (rev (trim_start s))).

(** [s.slice(0, n)] *)
Definition slice0 (n : nat) (s : string) : string := substring 0 n s.

(** Whether a string consists of white space only. *)
Fixpoint all_space (s : string) : bool :=
  match s with
  | String c rest => is_space c && all_space rest
  | EmptyString => true
  end.

End Str.

(* ------------------------------------------------------------------ *)
(** ** The data exchanged by the probes *)

(** Unified metrics, the result of [parseK6Data].  A numeric field that is
    missing ([undefined]) is represented by NaN: in every use below
    ([Number.isFinite], arithmetic, comparisons) the two behave alike. *)
Record Latency := { avg : float; p95 : float }.

Record Metrics := {
  latency : option Latency;
  throughput : float;
  failureRateUnderTest : float;
  serverErrorRate : float;
  vus : float
}.

(** Repository signals, the result of [analyzeGithubRepo]. *)
Record Marker := { present : bool }.

Record Summary := {
  devOpsScore : option Z;
  productionReady : option bool;
  riskLevel : option string;
  summaryRest : list (string * jsval)
}.

Record Github := {
  docker : Marker;
  cicd : Marker;
  kubernetes : Marker;
  hasStartScript : bool;
  summary : option Summary
}.

Record BusinessMetrics := {
  conversionLoss : float;
  adSpendRisk : float;
  stabilityRiskScore : float;
  remediations : list string;
  collapsePoint : float
}.

(* ------------------------------------------------------------------ *)
(** ** backend/Runners/k6runner.js *)

Module K6Runner.

(** *** The host: clock, child processes and the file system *)

(** What a child process does when left alone. *)
Record Process := {
  lifetime : option N;   (* milliseconds until it exits; [None]: it never exits *)
  exitCode : Z;
  outputBytes : N;       (* bytes it writes to stdout or stderr *)
  stdout : string
}.

(** The options of [child_process.exec] that matter here.  Node's defaults
    are a 1 MiB buffer and no time limit ([timeout: 0]). *)
Record ExecOptions := {
  maxBuffer : N;
  timeout : N
}.

Definition defaultExecOptions : ExecOptions :=
  {| maxBuffer := 1024 * 1024; timeout := 0 |}.

(** The arguments [(error, stdout)] passed to the callback of [exec]. *)
Inductive ExecResult :=
| ExecOk (out : string)
| ExecError (message : string).

(** Node's [child_process.exec(cmd, options, callback)], as documented: the
    child is killed, and the callback receives an error, when it writes more
    than [maxBuffer] bytes or when [timeout] is positive and the child runs
    longer; otherwise the callback is called when the child exits, with an
    error for a non-zero exit code.  [None]: the callback is never called. *)
Definition exec (cmd : string) (o : ExecOptions) (p : Process) : option ExecResult :=
  if (maxBuffer o <? outputBytes p)%N then
    Some (ExecError "stdout maxBuffer length exceeded")
  else
    match lifetime p with
    | Some ms =>
        if ((0 <? timeout o) && (timeout o <? ms))%N then
          Some (ExecError ("Command failed: " ++ cmd))
        else if (exitCode p =? 0)%Z then Some (ExecOk (stdout p))
        else Some (ExecError ("Command failed: " ++ cmd))
    | None =>
        if (0 <? timeout o)%N then Some (ExecError ("Command failed: " ++ cmd))
        else None
    end.

Record Host := {
  tmpdir : string;                       (* os.tmpdir() *)
  cwd : string;                          (* process.cwd() *)
  now : N;                               (* Date.now() when the probe starts *)
  run : string -> Process;               (* the child started for a command line *)
  existsSync : string -> bool;           (* fs.existsSync, after the run *)
  readFileSync : string -> outcome string;
  unlinkSync : string -> option string;  (* [Some m]: throws with message [m] *)
  JSON_parse : string -> outcome jsval
}.

(** *** The runner *)

(** [path.join] and [path.resolve] of a directory and a relative path. *)
Definition path_join (dir name : string) : string := dir ++ "/" ++ name.

Definition quoted (s : string) : string :=
  String (ascii_of_nat 34) (s ++ String (ascii_of_nat 34) "").

Record Options := {
  opt_vus : option N;
  opt_duration : option string
}.

(** [path.join(tempDir, `k6-result-${Date.now()}.json`)] *)
Definition resultFile (h : Host) : string :=
  path_join (tmpdir h) ("k6-result-" ++ Str.of_N (now h) ++ ".json").

Definition scriptPath (h : Host) : string :=
  path_join (cwd h) "loadtester/k6/test.js".

Definition cmd (h : Host) (testURL : string) (vus : N) (duration : string) : string :=
  "k6 run --summary-export=" ++ quoted (resultFile h)
  ++ " --env TARGET_URL=" ++ quoted testURL
  ++ " --env VUS=" ++ quoted (Str.of_N vus)
  ++ " --env DURATION=" ++ quoted duration
  ++ " " ++ quoted (scriptPath h).

(** The options object passed to the [exec] of the load run. *)
Definition runExecOptions : ExecOptions :=
  {| maxBuffer := 1024 * 1024 * 10; timeout := timeout defaultExecOptions |}.

(** The body of the callback of the load run, once [exec] reported no
    error: read, delete and parse the summary file. *)
Definition readSummary (h : Host) : outcome jsval :=
  if negb (existsSync h (resultFile h)) then
    Rejected "K6 output file not found. The test may have crashed without output."
  else
    match readFileSync h (resultFile h) with
    | Rejected m => Rejected ("Failed to read k6 output: " ++ m)
    | Resolved rawData =>
        match unlinkSync h (resultFile h) with
        | Some m => Rejected ("Failed to read k6 output: " ++ m)
        | None =>
            match JSON_parse h rawData with
            | Rejected m => Rejected ("Failed to read k6 output: " ++ m)
            | Resolved v => Resolved v
            end
        end
    end.

(** The destructuring [{ vus = 100, duration = "30s" } = {}] of the second
    argument: a missing argument is the empty object, a missing property
    takes its default. *)
Definition vusOf (options : option Options) : N :=
  match options with
  | Some {| opt_vus := Some v |} => v
  | _ => 100%N
  end.

Definition durationOf (options : option Options) : string :=
  match options with
  | Some {| opt_duration := Some d |} => d
  | _ => "30s"
  end.

(** [runK6Test(testURL, { vus = 100, duration = "30s" } = {})] *)
Definition runK6Test (h : Host) (testURL : string) (options : option Options)
  : promise jsval :=
  let line := cmd h testURL (vusOf options) (durationOf options) in
  match exec "k6 version" defaultExecOptions (run h "k6 version") with
  | None => Pending
  | Some (ExecError _) =>
      Settled (Rejected "k6 performance engine is not installed on the server environment.")
  | Some (ExecOk _) =>
      match exec line runExecOptions (run h line) with
      | None => Pending
      | Some (ExecError m) => Settled (Rejected ("k6 execution failed: " ++ m))
      | Some (ExecOk _) => Settled (readSummary h)
      end
  end.

(** The function given to [new Promise] (l.15-66), outer try block
    included: an exception thrown by the synchronous statements before the
    first callback is registered ([os.tmpdir()], [process.cwd()], the first
    call of [exec]) is caught at l.64-66 and rejects the promise with that
    exception itself; [thrown] is its message, [None] when there is none. *)
Definition executor (thrown : option string) (h : Host) (testURL : string)
    (options : option Options) : promise jsval :=
  match thrown with
  | Some err => Settled (Rejected err)
  | None => runK6Test h testURL options
  end.

End K6Runner.

(* ------------------------------------------------------------------ *)
(** ** backend/Runners/playwrightRunner.js *)

Module PlaywrightRunner.

Local Open Scope float_scope.

(** What the two in-page scripts can see of the loaded document. *)
Record Page := {
  images : list string;      (* the [alt] of every [img] element, in document order *)
  title : string;            (* document.title *)
  metaDescription : bool;    (* a [meta[name="description"]] element exists *)
  protocol : string          (* window.location.protocol *)
}.

(** One browser session: the environment, the clock readings around the
    navigation, the page, and for every awaited browser call whether it
    throws ([Some message]) or completes ([None]). *)
Record Session := {
  EXECUTION_MODE : option string;   (* process.env.EXECUTION_MODE *)
  random : nat -> float;            (* the successive results of Math.random() *)
  launch : option string;           (* chromium.launch *)
  newContext : option string;       (* browser.newContext *)
  newPage : option string;          (* context.newPage *)
  startTime : Z;                    (* Date.now() before page.goto *)
  goto : option string;             (* page.goto, 30 s navigation timeout included *)
  endTime : Z;                      (* Date.now() after page.goto *)
  evaluateTiming : option string;   (* the first page.evaluate *)
  evaluateAudit : option string;    (* the second page.evaluate *)
  page : Page;
  close : option string;            (* browser.close() at the end of the try block *)
  closeInCatch : option string      (* browser.close() in the catch block *)
}.

(** An awaited call inside the try block. *)
Definition await (fault : option string) : outcome unit :=
  match fault with
  | Some m => Rejected m
  | None => Resolved tt
  end.

Definition andThen {A B} (c : outcome A) (k : A -> outcome B) : outcome B :=
  match c with
  | Resolved a => k a
  | Rejected m => Rejected m
  end.

Notation "c ;; k" := (andThen c (fun _ => k))
  (at level 61, right associativity).

(** *** The simulated audit *)

Definition mockResult (random : nat -> float) : jsval :=
  JObj [ ("performance",   JNum (75 + random 0%nat * 20));
         ("accessibility", JNum (85 + random 1%nat * 10));
         ("bestPractices", JNum (80 + random 2%nat * 15));
         ("seo",           JNum (90 + random 3%nat * 10));
         ("interactivity", JNum (70 + random 4%nat * 25)) ].

(** *** The real audit *)

Definition getScore (condition : bool) : float :=
  if condition then 100 else 0.

Record AuditResults := {
  accessibility : float;
  seo : float;
  bestPractices : float
}.

Definition of_nat (n : nat) : float := JS.of_Z (Z.of_nat n).

(** The heuristics evaluated in the page. *)
Definition auditResults (p : Page) : AuditResults :=
  let imagesWithAlt := List.length (filter (fun alt => negb (alt =? "")%string) (images p)) in
  let accessibilityScore :=
    if (0 <? List.length (images p))%nat
    then (of_nat imagesWithAlt / of_nat (List.length (images p))) * 100
    else 100 in
  let hasTitle := negb (title p =? "")%string in
  let hasMetaDesc := metaDescription p in
  let seoScore := (getScore hasTitle + getScore hasMetaDesc) / 2 in
  let isHttps := (protocol p =? "https:")%string in
  let bestPracticesScore := (getScore isHttps + 100) / 2 in
  {| accessibility := accessibilityScore;
     seo := seoScore;
     bestPractices := bestPracticesScore |}.

Definition loadTime (s : Session) : float :=
  JS.of_Z (endTime s) - JS.of_Z (startTime s).

Definition performanceScore (loadTime : float) : float :=
  JS.Math_max 0 (100 - loadTime / 100).

Definition interactivityScore (performanceScore : float) : float :=
  JS.Math_min 100 (performanceScore + 5).

Definition finalResult (loadTime : float) (a : AuditResults) : jsval :=
  JObj [ ("performance",   JNum (JS.toFixed_number 0 (performanceScore loadTime)));
         ("accessibility", JNum (JS.toFixed_number 0 (accessibility a)));
         ("bestPractices", JNum (JS.toFixed_number 0 (bestPractices a)));
         ("seo",           JNum (JS.toFixed_number 0 (seo a)));
         ("interactivity", JNum (JS.toFixed_number 0
                                   (interactivityScore (performanceScore loadTime))));
         ("loadTimeMs",    JNum loadTime) ].

(** The try block from [browser.newContext()] to [return finalResult]. *)
Definition realAudit (s : Session) : outcome jsval :=
  await (newContext s) ;;
  await (newPage s) ;;
  await (goto s) ;;
  await (evaluateTiming s) ;;
  await (evaluateAudit s) ;;
  await (close s) ;;
  Resolved (finalResult (loadTime s) (auditResults (page s))).

(** [runPlaywrightAudit(testURL, { forceSimulation = false } = {})].
    The result lists, next to the settled promise, the value of
    [forceSimulation] at every entry of the function, outermost call first.
    [fuel] bounds the depth of the recursion; [None] means it ran out.
    The one-second delay of the simulated path is not represented. *)
Fixpoint runPlaywrightAudit (fuel : nat) (s : Session) (testURL : string)
    (forceSimulation : bool) : option (list bool * outcome jsval) :=
  match fuel with
  | O => None
  | S fuel' =>
      let isDemo :=
        match EXECUTION_MODE s with Some mode => (mode =? "demo")%string | None => false end
        || forceSimulation in
      let fallback :=
        match runPlaywrightAudit fuel' s testURL true with
        | Some (calls, r) => Some (forceSimulation :: calls, r)
        | None => None
        end in
      if isDemo then Some ([forceSimulation], Resolved (mockResult (random s)))
      else
        match launch s with
        | Some _ => fallback                      (* [browser] is still undefined *)
        | None =>
            match realAudit s with
            | Resolved result => Some ([forceSimulation], Resolved result)
            | Rejected _ =>
                match closeInCatch s with
                | Some m => Some ([forceSimulation], Rejected m)
                | None => fallback
                end
            end
        end
  end.

(** Whether an audit object says that it was simulated. *)
Definition isSimulated (result : jsval) : bool := truthy (get result "isSimulated").

(** *** The scores as the specification words them *)

Definition checkValue (passed : bool) : float := if passed then 1 else 0.

Definition spec_accessibility (withAlt total : nat) : float :=
  match total with
  | O => 100
  | _ => of_nat withAlt / of_nat total * 100
  end.

Definition spec_seo (hasTitle hasMetaDesc : bool) : float :=
  (checkValue hasTitle + checkValue hasMetaDesc) / 2 * 100.

Definition spec_bestPractices (isHttps : bool) : float :=
  ((if isHttps then 100 else 0) + 100) / 2.

Definition spec_performance (loadTimeMs : float) : float :=
  JS.Math_max 0 (100 - loadTimeMs / 100).

Definition spec_interactivity (performance : float) : float :=
  JS.Math_min 100 (performance + 5).

End PlaywrightRunner.

(* ------------------------------------------------------------------ *)
(** ** The POST /api/load-test handler *)

Module LoadTestRoute.

Definition nl : string := String (ascii_of_nat 10) "".

(** [req.body]: the two fields the handler destructures, and every other
    field the client sent. *)
Record Body := {
  testURL : option string;
  githubRepo : option string;
  otherFields : list (string * jsval)
}.

(** Truthiness of an optional string field. *)
Definition given (field : option string) : bool :=
  match field with
  | Some s => negb (s =? "")
  | None => false
  end.

(** [`${testURL || githubRepo}`] *)
Definition target (b : Body) : string :=
  match testURL b, githubRepo b with
  | Some u, Some r => if (u =? "") then r else u
  | Some u, None => if (u =? "") then "undefined" else u
  | None, Some r => r
  | None, None => "undefined"
  end.

(** *** Repository summary (lines 61-80) *)

Definition scoreSummary (github : Github) (s : Summary) : Summary :=
  let score :=
    ((if present (docker github) then 30 else 0) +
     (if present (cicd github) then 30 else 0) +
     (if present (kubernetes github) then 20 else 0) +
     (if hasStartScript github then 20 else 0))%Z in
  {| devOpsScore := Some score;
     productionReady :=
       Some (hasStartScript github && present (docker github) && present (cicd github));
     riskLevel :=
       Some (if (70 <=? score)%Z then "low"
             else if (40 <=? score)%Z then "medium"
             else "high");
     summaryRest := summaryRest s |}.

(** [if (github && github.summary) { github.summary.devOpsScore = ...; ... }]:
    the summary object of the repository result is updated in place. *)
Definition annotate (github : option Github) : option Github :=
  match github with
  | Some g =>
      match summary g with
      | Some s =>
          Some {| docker := docker g; cicd := cicd g; kubernetes := kubernetes g;
                  hasStartScript := hasStartScript g;
                  summary := Some (scoreSummary g s) |}
      | None => Some g
      end
  | None => None
  end.

(** *** Business metrics (lines 130-159) *)

(** [Number.isFinite(v) ? v : fallback], the result being used as [A]. *)
Definition safeNumber {A} (use : float -> A) (v : float) (fallback : A) : A :=
  if JS.isFinite v then use v else fallback.

(** [metrics.latency?.avg] and [metrics.latency?.p95] *)
Definition latency_avg (m : Metrics) : float :=
  match latency m with Some l => avg l | None => nan end.

Definition latency_p95 (m : Metrics) : float :=
  match latency m with Some l => p95 l | None => nan end.

Definition cdnRemediation : string :=
  "Enable CDN Edge Caching → -600ms p95 latency".
Definition redisRemediation : string :=
  "Implement Redis Caching → +40% throughput throughput capacity".
Definition autoScaleRemediation : string :=
  "Auto-Scale Infrastructure → Neutralize service disruptions".
Definition cicdRemediation : string :=
  "Setup CI/CD Pipeline → Reduce 3× outage risk during peak traffic".

Local Open Scope float_scope.

Definition businessMetrics (metrics : option Metrics) (githubResult : option Github)
  : BusinessMetrics :=
  let fromMetrics :=
    match metrics with
    | Some m =>
        {| conversionLoss :=
             JS.toFixed_number 1 (safeNumber (fun v => v) (latency_avg m) 0 / 1000 * 7);
           adSpendRisk :=
             JS.Math_round (failureRateUnderTest m * throughput m * 150 * 5);
           stabilityRiskScore :=
             JS.Math_max 0 (100 - failureRateUnderTest m * 500 - latency_p95 m / 20);
           collapsePoint :=
             JS.Math_round
               (vus m * (if (0.05 <? failureRateUnderTest m)%float then 0.9 else 1.5));
           remediations :=
             (if (500 <? latency_p95 m)%float then [cdnRemediation] else [])
             ++ (if (throughput m <? 100)%float then [redisRemediation] else [])
             ++ (if (0 <? serverErrorRate m)%float then [autoScaleRemediation] else [])
        |}
    | None =>
        {| conversionLoss := 0; adSpendRisk := 0; stabilityRiskScore := 0;
           remediations := []; collapsePoint := 0 |}
    end in
  match githubResult with
  | Some g =>
      if negb (present (cicd g)) then
        {| conversionLoss := conversionLoss fromMetrics;
           adSpendRisk := adSpendRisk fromMetrics;
           stabilityRiskScore := stabilityRiskScore fromMetrics;
           remediations := remediations fromMetrics ++ [cicdRemediation];
           collapsePoint := collapsePoint fromMetrics |}
      else fromMetrics
  | None => fromMetrics
  end.

Local Close Scope float_scope.

(** *** The imported collaborators *)

(** A chat message: role and content. *)
Definition Message : Type := string * string.

(** The document handed to [new TestSession(...)] (the user id is left out). *)
Record SessionDoc := {
  doc_url : string;
  doc_metrics : option Metrics;
  doc_browserMetrics : option jsval;
  doc_charts : option jsval;
  doc_github : option Github;
  doc_ai_message : string;
  doc_ai_businessInsights : BusinessMetrics;
  doc_chatHistory : list (string * string)
}.

(** The modules the handler imports, and the database. *)
Record World := {
  runK6Test : string -> option K6Runner.Options -> promise jsval;
  analyzeGithubRepo : string -> promise Github;
  runPlaywrightAudit : string -> promise jsval;
  getresponseopenrouter : list Message -> promise jsval;
  save : SessionDoc -> promise string      (* newSession.save(), then its id *)
}.

(** The body of the 200 response (the [user] block is left out). *)
Record Payload := {
  id : string;
  metrics : option Metrics;
  browserMetrics : option jsval;
  charts : option jsval;
  github : option Github;
  ai_message : string
}.

Inductive Response :=
| BadRequest (error : string)       (* status 400 *)
| ServerError (error : string)      (* status 500 *)
| Success (payload : Payload).      (* 200, success: true *)

Section Handler.

(** Utils/Loaddata.js is not part of the sources at hand; its two exports
    are parameters.  So are the conversions of values to text and the two
    fixed prompt texts. *)
Variable parseK6Data : jsval -> Metrics.
Variable buildChartResponse : Metrics -> jsval.
Variable show : jsval -> string.              (* [`${v}`] *)
Variable toFixed2 : float -> string.          (* [x.toFixed(2)] *)
Variable JSON_stringify : Metrics -> string.  (* [JSON.stringify(metrics, null, 2)] *)
Variable systemPrompt : string.
Variable summaryInstructions : string.

(** *** The context text (lines 85-125) *)

Definition safePercent (v : float) : string :=
  if JS.isFinite v then toFixed2 (v * 100)%float else "0.00".

Definition shown (v : float) : string :=
  safeNumber (fun x => show (JNum x)) v "N/A".

Definition detected (b : bool) : string :=
  if b then "Detected" else "Not detected".

Definition targetHeader (b : Body) : string :=
  "Target under test: " ++ target b ++ nl ++ nl.

Definition metricsSection (metrics : option Metrics) : string :=
  match metrics with
  | Some m =>
      "Runtime Metrics (Observed):" ++ nl
      ++ "- Failure Rate: " ++ safePercent (failureRateUnderTest m) ++ "%" ++ nl
      ++ "- p95 Latency: " ++ shown (latency_p95 m) ++ " ms" ++ nl
      ++ "- Avg Latency: " ++ shown (latency_avg m) ++ " ms" ++ nl
      ++ "- Throughput: " ++ shown (throughput m) ++ " req/s" ++ nl
      ++ "- Server Error Rate (5xx): " ++ safePercent (serverErrorRate m) ++ "%"
      ++ nl ++ nl
  | None => ""
  end.

Definition repositoryNotAvailable : string :=
  "Repository Signals: Not available (no repository provided)" ++ nl ++ nl.

Definition repositorySection (githubResult : option Github) : string :=
  match githubResult with
  | Some g =>
      match summary g with
      | Some _ =>
          "Repository Signals (Static):" ++ nl
          ++ "- Docker: " ++ detected (present (docker g)) ++ nl
          ++ "- CI/CD: " ++ detected (present (cicd g)) ++ nl
          ++ "- Kubernetes: " ++ detected (present (kubernetes g)) ++ nl ++ nl
      | None => repositoryNotAvailable
      end
  | None => repositoryNotAvailable
  end.

Definition browserSection (playwrightResult : option jsval) : string :=
  match playwrightResult with
  | Some r =>
      if truthy r then
        "Browser Experience Audit (External):" ++ nl
        ++ "- Performance Score: " ++ show (get r "performance") ++ "/100" ++ nl
        ++ "- Accessibility Score: " ++ show (get r "accessibility") ++ "/100" ++ nl
        ++ "- Best Practices Score: " ++ show (get r "bestPractices") ++ "/100" ++ nl
        ++ "- SEO Score: " ++ show (get r "seo") ++ "/100" ++ nl
        ++ "- Interactivity Score: " ++ show (get r "interactivity") ++ "/100" ++ nl
        ++ (if truthy (get r "loadTimeMs")
            then "- Real Browser Load Time: " ++ show (get r "loadTimeMs") ++ " ms" ++ nl
            else "")
        ++ nl
      else ""
  | None => ""
  end.

(** The value of [context] after the three [if] blocks. *)
Definition context (b : Body) (metrics : option Metrics)
    (githubResult : option Github) (playwrightResult : option jsval) : string :=
  targetHeader b
  ++ metricsSection metrics
  ++ repositorySection githubResult
  ++ browserSection playwrightResult.

(** *** The narrative (lines 164-246) *)

Definition safeContext (metrics : Metrics) (context : string) : string :=
  if (0 <? String.length (Str.trim context))%nat
  then Str.slice0 6000 context
  else "Runtime Metrics:" ++ nl ++ JSON_stringify metrics.

Definition messages (safeContext : string) : list Message :=
  [ ("system", Str.trim systemPrompt);
    ("user", Str.trim (nl ++ safeContext ++ nl ++ nl ++ summaryInstructions)) ].

Definition noMetricsMessage : string :=
  "Load Test Failed: No runtime metrics were collected. The target may be unreachable.".

Definition emptyVerdict : string :=
  "**SynthMind AI Verdict**" ++ nl ++ nl ++ "Analysis completed. Refer to metrics.".

(** [runLiveAuditAI({ metrics, context, getresponseopenrouter })]; the
    result is the [message] of the object it returns. *)
Definition runLiveAuditAI (metrics : option Metrics) (context : string)
    (getresponseopenrouter : list Message -> promise jsval) : promise string :=
  match metrics with
  | None => Settled (Resolved noMetricsMessage)
  | Some m =>
      match getresponseopenrouter (messages (safeContext m context)) with
      | Pending => Pending
      | Settled (Rejected _) =>
          Settled (Resolved "SynthMind AI could not generate the live audit.")
      | Settled (Resolved (JStr response)) =>
          if (0 <? String.length (Str.trim response))%nat
          then Settled (Resolved (Str.trim response))
          else Settled (Resolved emptyVerdict)
      | Settled (Resolved _) => Settled (Resolved emptyVerdict)
      end
  end.

(** *** The handler *)

Definition loadOptions : K6Runner.Options :=
  {| K6Runner.opt_vus := Some 200%N; K6Runner.opt_duration := Some "5s" |}.

(** The three entries of the array given to [Promise.all]. *)
Definition loadProbe (w : World) (b : Body) : promise (option jsval) :=
  match testURL b with
  | Some url =>
      if given (testURL b) then catch_null (runK6Test w url (Some loadOptions))
      else Settled (Resolved None)
  | None => Settled (Resolved None)
  end.

Definition repositoryProbe (w : World) (b : Body) : promise (option Github) :=
  match githubRepo b with
  | Some repo =>
      if given (githubRepo b) then catch_null (analyzeGithubRepo w repo)
      else Settled (Resolved None)
  | None => Settled (Resolved None)
  end.

Definition browserProbe (w : World) (b : Body) : promise (option jsval) :=
  match testURL b with
  | Some url =>
      if given (testURL b) then catch_null (runPlaywrightAudit w url)
      else Settled (Resolved None)
  | None => Settled (Resolved None)
  end.

Definition failed : Response := ServerError "Load test execution failed".

(** [router.post("/", ...)].  [None]: no response is ever sent. *)
Definition handler (w : World) (b : Body) : option Response :=
  if negb (given (testURL b)) && negb (given (githubRepo b)) then
    Some (BadRequest "Provide testURL or githubRepo")
  else
    match all3 (loadProbe w b) (repositoryProbe w b) (browserProbe w b) with
    | Pending => None
    | Settled (Rejected _) => Some failed
    | Settled (Resolved (testResult, githubResult, playwrightResult)) =>
        let metrics :=
          match testResult with
          | Some r => if truthy r then Some (parseK6Data r) else None
          | None => None
          end in
        let charts := option_map buildChartResponse metrics in
        (* [github] and [githubResult] name one object, updated here *)
        let github := annotate githubResult in
        let context := context b metrics github playwrightResult in
        let business := businessMetrics metrics github in
        match runLiveAuditAI metrics context (getresponseopenrouter w) with
        | Pending => None
        | Settled (Rejected _) => Some failed
        | Settled (Resolved aiResponseMsg) =>
            let doc :=
              {| doc_url := target b;
                 doc_metrics := metrics;
                 doc_browserMetrics := playwrightResult;
                 doc_charts := charts;
                 doc_github := github;
                 doc_ai_message := aiResponseMsg;
                 doc_ai_businessInsights := business;
                 doc_chatHistory := [("bot", aiResponseMsg)] |} in
            match save w doc with
            | Pending => None
            | Settled (Rejected _) => Some failed
            | Settled (Resolved sessionId) =>
                Some (Success
                        {| id := sessionId;
                           metrics := metrics;
                           browserMetrics := playwrightResult;
                           charts := charts;
                           github := github;
                           ai_message := aiResponseMsg |})
            end
        end
    end.

End Handler.

(** The world of a server whose runners are the two modules above. *)
Definition server (h : K6Runner.Host) (s : PlaywrightRunner.Session)
    (analyze : string -> promise Github)
    (ask : list Message -> promise jsval)
    (store : SessionDoc -> promise string) : World :=
  {| runK6Test := K6Runner.runK6Test h;
     analyzeGithubRepo := analyze;
     runPlaywrightAudit := fun url =>
       match PlaywrightRunner.runPlaywrightAudit 2 s url false with
       | Some (_, r) => Settled r
       | None => Pending
       end;
     getresponseopenrouter := ask;
     save := store |}.

(** *** The two GET routes (lines 312-363) *)

(** A session document as [TestSession.findById] returns it. *)
Record StoredSession := {
  session_id : string;
  session_doc : SessionDoc
}.

Record Database := {
  findById : string -> promise (option StoredSession);  (* [None]: it resolves to null *)
  isValidObjectId : string -> bool                      (* mongoose.isValidObjectId *)
}.

(** [req.user], as far as the GET routes read it. *)
Record User := { lastSessionId : option string }.

(** The body of a 200 response of the GET routes. *)
Record Report := {
  report_id : string;
  report_url : string;
  report_metrics : option Metrics;
  report_browserMetrics : option jsval;
  report_charts : option jsval;
  report_github : option Github;
  report_ai_message : string;
  report_ai_businessInsights : BusinessMetrics;
  aiVerdict : string
}.

Inductive GetResponse :=
| NotFound (error : string)       (* status 404 *)
| FetchFailed (error : string)    (* status 500 *)
| Found (r : Report).             (* 200 *)

Definition report (session : StoredSession) : Report :=
  {| report_id := session_id session;
     report_url := doc_url (session_doc session);
     report_metrics := doc_metrics (session_doc session);
     report_browserMetrics := doc_browserMetrics (session_doc session);
     report_charts := doc_charts (session_doc session);
     report_github := doc_github (session_doc session);
     report_ai_message := doc_ai_message (session_doc session);
     report_ai_businessInsights := doc_ai_businessInsights (session_doc session);
     aiVerdict := "Passed" |}.

(** [router.get("/latest", ...)].  Without [req.user] the read of
    [req.user.lastSessionId] throws inside the try block. *)
Definition getLatest (db : Database) (user : option User) : option GetResponse :=
  match user with
  | None => Some (FetchFailed "Failed to fetch latest test")
  | Some u =>
      match lastSessionId u with
      | Some sessionId =>
          if negb (given (Some sessionId)) then
            Some (NotFound "No test history found")
          else if negb (isValidObjectId db sessionId) then
            Some (NotFound "Previous test data incompatible/missing. Run a new test.")
          else
            match findById db sessionId with
            | Pending => None
            | Settled (Rejected _) => Some (FetchFailed "Failed to fetch latest test")
            | Settled (Resolved None) => Some (NotFound "Latest report data expired")
            | Settled (Resolved (Some session)) => Some (Found (report session))
            end
      | None => Some (NotFound "No test history found")
      end
  end.

(** [router.get("/:id", ...)] *)
Definition getById (db : Database) (sessionId : string) : option GetResponse :=
  match findById db sessionId with
  | Pending => None
  | Settled (Rejected _) => Some (FetchFailed "Failed to fetch test report")
  | Settled (Resolved None) => Some (NotFound "Report not found")
  | Settled (Resolved (Some session)) => Some (Found (report session))
  end.

End LoadTestRoute.

(* ================================================================== *)
(** * Scenarios

    Concrete metrics, pages, hosts and servers on which the properties
    below are exercised. *)

Import LoadTestRoute.
Import PlaywrightRunner.

(** The metrics of scenario 1. *)
Definition scenario1 : Metrics :=
  {| latency := Some {| avg := 1000; p95 := 600 |};
     throughput := 50;
     failureRateUnderTest := 0.1;
     serverErrorRate := 0.02;
     vus := 200 |}.

(** A repository result in which no CI/CD configuration was found. *)
Definition repositoryWithoutCicd : Github :=
  {| docker := {| present := true |};
     cicd := {| present := false |};
     kubernetes := {| present := false |};
     hasStartScript := true;
     summary := None |}.

(** A session whose navigation times out while everything else works. *)
Definition navigationTimeout : Session :=
  {| EXECUTION_MODE := None;
     PlaywrightRunner.random := fun _ => 0.5%float;
     launch := None; newContext := None; newPage := None;
     startTime := 1700000000000;
     goto := Some "page.goto: Timeout 30000ms exceeded.";
     endTime := 1700000030000;
     evaluateTiming := None; evaluateAudit := None;
     page := {| images := []; title := ""; metaDescription := false;
                protocol := "http:" |};
     close := None; closeInCatch := None |}.

(** A session in which the page loads in 1234 ms over https, with a title,
    a meta description and two images, one of them without alt text. *)
Definition quickHttpsPage : Session :=
  {| EXECUTION_MODE := Some "production";
     PlaywrightRunner.random := fun _ => 0.5%float;
     launch := None; newContext := None; newPage := None;
     startTime := 1700000000000;
     goto := None;
     endTime := 1700000001234;
     evaluateTiming := None; evaluateAudit := None;
     page := {| images := ["logo"; ""]; title := "Shop";
                metaDescription := true; protocol := "https:" |};
     close := None; closeInCatch := None |}.

(** A k6 installation that answers [k6 version]; every other command line
    behaves as [loadRun] says. *)
Definition hostWith (clock : N) (loadRun : string -> K6Runner.Process)
  : K6Runner.Host :=
  {| K6Runner.tmpdir := "/tmp";
     K6Runner.cwd := "/srv/app";
     K6Runner.now := clock;
     K6Runner.run := fun cmd =>
       if cmd =? "k6 version"
       then {| K6Runner.lifetime := Some 40%N; K6Runner.exitCode := 0;
               K6Runner.outputBytes := 64; K6Runner.stdout := "k6 v0.49.0" |}
       else loadRun cmd;
     K6Runner.existsSync := fun _ => true;
     K6Runner.readFileSync := fun _ => Resolved "{}";
     K6Runner.unlinkSync := fun _ => None;
     K6Runner.JSON_parse := fun _ => Resolved (JObj []) |}.

Definition exitsAfter (ms : N) (code : Z) : K6Runner.Process :=
  {| K6Runner.lifetime := Some ms; K6Runner.exitCode := code;
     K6Runner.outputBytes := 2048; K6Runner.stdout := "" |}.

Definition neverExits : K6Runner.Process :=
  {| K6Runner.lifetime := None; K6Runner.exitCode := 0;
     K6Runner.outputBytes := 0; K6Runner.stdout := "" |}.

(** A request for a URL only, with load parameters in the body. *)
Definition urlOnlyRequest : Body :=
  {| testURL := Some "http://shop.example";
     githubRepo := None;
     otherFields := [("vus", JNum 5); ("duration", JStr "10m")] |}.

(** A server on which k6 is not installed, the repository analysis is
    refused and the navigation of the browser times out. *)
Definition hostWithoutK6 : K6Runner.Host :=
  {| K6Runner.tmpdir := "/tmp";
     K6Runner.cwd := "/srv/app";
     K6Runner.now := 1700000000000;
     K6Runner.run := fun _ =>
       {| K6Runner.lifetime := Some 3%N; K6Runner.exitCode := 127;
          K6Runner.outputBytes := 30; K6Runner.stdout := "" |};
     K6Runner.existsSync := fun _ => false;
     K6Runner.readFileSync := fun _ => Rejected "ENOENT";
     K6Runner.unlinkSync := fun _ => None;
     K6Runner.JSON_parse := fun _ => Rejected "Unexpected end of JSON input" |}.


Definition bothTargetsRequest : Body :=
  {| testURL := Some "http://shop.example";
     githubRepo := Some "shop/storefront";
     otherFields := [] |}.

(** [subseq l m]: the list [l] is [m] with some elements left out. *)
Fixpoint subseq (l m : list string) : bool :=
  match l, m with
  | [], _ => true
  | _ :: _, [] => false
  | x :: l', y :: m' => if (x =? y)%string then subseq l' m' else subseq l m'
  end.

(** The four remediation texts, in the order in which they are pushed. *)
Definition allRemediations : list string :=
  [cdnRemediation; redisRemediation; autoScaleRemediation; cicdRemediation].

(** Metrics of a run whose summary had no latency block. *)
Definition metricsWithoutLatency : Metrics :=
  {| latency := None; throughput := 250; failureRateUnderTest := 0.01;
     serverErrorRate := 0; vus := 200 |}.

(** A session in which the audit completes but the final [browser.close()]
    throws. *)
Definition closeFailsAtEnd : Session :=
  {| EXECUTION_MODE := None;
     PlaywrightRunner.random := fun _ => 0.5%float;
     launch := None; newContext := None; newPage := None;
     startTime := 1700000000000;
     goto := None;
     endTime := 1700000000800;
     evaluateTiming := None; evaluateAudit := None;
     page := {| images := ["logo"]; title := "Shop"; metaDescription := true;
                protocol := "https:" |};
     close := Some "browser.close: Target closed";
     closeInCatch := None |}.

(** As [closeFailsAtEnd], the second [browser.close()] throwing as well. *)
Definition closeFailsTwice : Session :=
  {| EXECUTION_MODE := None;
     PlaywrightRunner.random := fun _ => 0.5%float;
     launch := None; newContext := None; newPage := None;
     startTime := 1700000000000;
     goto := None;
     endTime := 1700000000800;
     evaluateTiming := None; evaluateAudit := None;
     page := {| images := ["logo"]; title := "Shop"; metaDescription := true;
                protocol := "https:" |};
     close := Some "browser.close: Target closed";
     closeInCatch := Some "browser.close: Target closed" |}.

(** A host on which the load run succeeds and leaves a summary. *)
Definition healthyHost : K6Runner.Host :=
  hostWith 1700000000000 (fun _ => exitsAfter 5200 0).

(** A server on which all three probes succeed; the database hands out
    one fixed id. *)
Definition healthyServer : World :=
  server healthyHost quickHttpsPage
    (fun _ => Settled (Resolved repositoryWithoutCicd))
    (fun _ => Settled (Resolved (JStr "  **SynthMind AI Verdict** ready  ")))
    (fun _ => Settled (Resolved "65f0c0ffee65f0c0ffee65f0")).

(** The handler with the missing helpers replaced by fixed stand-ins. *)
Definition handlerWithStubs : World -> Body -> option Response :=
  handler (fun _ => scenario1) (fun _ => JNull) (fun _ => "n") (fun _ => "p")
    (fun _ => "{}") "system" "instructions".

(** The session document the handler stores for [bothTargetsRequest] on
    [healthyServer]. *)
Definition storedDocument : SessionDoc :=
  {| doc_url := "http://shop.example";
     doc_metrics := Some scenario1;
     doc_browserMetrics :=
       Some (JObj [ ("performance", JNum 88); ("accessibility", JNum 50);
                    ("bestPractices", JNum 100); ("seo", JNum 100);
                    ("interactivity", JNum 93); ("loadTimeMs", JNum 1234) ]);
     doc_charts := Some JNull;
     doc_github := Some repositoryWithoutCicd;
     doc_ai_message := "**SynthMind AI Verdict** ready";
     doc_ai_businessInsights :=
       businessMetrics (Some scenario1) (Some repositoryWithoutCicd);
     doc_chatHistory := [("bot", "**SynthMind AI Verdict** ready")] |}.

(** A database that holds exactly that document. *)
Definition oneSessionDatabase : Database :=
  {| findById := fun sessionId =>
       if (sessionId =? "65f0c0ffee65f0c0ffee65f0")%string
       then Settled (Resolved (Some {| session_id := sessionId;
                                       session_doc := storedDocument |}))
       else Settled (Resolved None);
     isValidObjectId := fun sessionId => (String.length sessionId =? 24)%nat |}.



(** A request that names a repository only. *)
Definition repositoryOnlyRequest : Body :=
  {| testURL := None; githubRepo := Some "shop/storefront"; otherFields := [] |}.

(** The session document that goes with a 200 response to the body [b]. *)
Definition sessionDocument (b : Body) (payload : Payload) : SessionDoc :=
  {| doc_url := target b;
     doc_metrics := metrics payload;
     doc_browserMetrics := browserMetrics payload;
     doc_charts := charts payload;
     doc_github := github payload;
     doc_ai_message := ai_message payload;
     doc_ai_businessInsights := businessMetrics (metrics payload) (github payload);
     doc_chatHistory := [("bot", ai_message payload)] |}.

(* ================================================================== *)
(** * Properties *)

(* ------------------------------------------------------------------ *)
(** ** Business metrics *)

(** C1: for the metrics of scenario 1 the business metrics are
    conversion loss 7.0, ad-spend risk 3750, stability score 20 and collapse
    point 180, and the remediation list starts with the CDN caching, the
    Redis throughput and the auto-scaling items, in that order, whatever
    the repository result is (it can only add the CI/CD item behind them). *)
Theorem scenario1_business_metrics : forall githubResult : option Github,
  let r := businessMetrics (Some scenario1) githubResult in
  conversionLoss r = 7%float
  /\ adSpendRisk r = 3750%float
  /\ stabilityRiskScore r = 20%float
  /\ collapsePoint r = 180%float
  /\ exists rest,
       remediations r
       = [cdnRemediation; redisRemediation; autoScaleRemediation] ++ rest
       /\ (rest = [] \/ rest = [cicdRemediation]).
Proof.
  intros [g|].
  - destruct g as [d [c] k h s]; destruct c;
      vm_compute; repeat split; eexists; split; try reflexivity; auto.
  - vm_compute; repeat split; eexists; split; try reflexivity; auto.
Qed.

(** C4, refuted as stated: without metrics but with a repository result
    that lacks CI/CD, the remediation list is not empty. *)
Lemma no_metrics_remediations_not_empty :
  remediations (businessMetrics None (Some repositoryWithoutCicd)) <> [].
Proof. vm_compute. discriminate. Qed.

(** C4, amended: without metrics the four scores are zero, and the
    remediation list holds the CI/CD item exactly when a repository result
    is present and reports no CI/CD; otherwise it is empty. *)
Theorem no_metrics_business_metrics : forall githubResult : option Github,
  let r := businessMetrics None githubResult in
  conversionLoss r = 0%float
  /\ adSpendRisk r = 0%float
  /\ stabilityRiskScore r = 0%float
  /\ collapsePoint r = 0%float
  /\ remediations r
     = match githubResult with
       | Some g => if present (cicd g) then [] else [cicdRemediation]
       | None => []
       end.
Proof.
  intros [g|]; cbn.
  - unfold businessMetrics. destruct (present (cicd g)); cbn; repeat split.
  - repeat split.
Qed.

(* ------------------------------------------------------------------ *)
(** ** Repository summary *)

(** C8, refuted as stated: a repository result with its four signals but
    without a summary object is left as it is; no devOpsScore,
    productionReady or riskLevel is computed for it. *)
Lemma signals_without_summary_not_scored :
  annotate (Some repositoryWithoutCicd) = Some repositoryWithoutCicd
  /\ ~ (exists s' : Summary,
          option_map summary (annotate (Some repositoryWithoutCicd))
          = Some (Some s')).
Proof.
  split; [reflexivity|]. intros [s' H]. discriminate H.
Qed.

(** C8, amended: on a repository result that carries a summary object
    (only then are the fields computed), the handler sets devOpsScore to 30 docker + 30 cicd + 20 kubernetes + 20 start script
    (each flag counted as 0 or 1), productionReady to the conjunction of
    start script, docker and cicd, and riskLevel to "low" exactly from 70
    up, "medium" exactly from 40 to 69 and "high" exactly below 40; docker,
    kubernetes and start script without CI/CD give 70, false and "low". *)
Theorem repository_summary_scores :
  forall (d c k h : bool) (s : Summary),
    let g := {| docker := {| present := d |}; cicd := {| present := c |};
                kubernetes := {| present := k |}; hasStartScript := h;
                summary := Some s |} in
    let score := (30 * Z.b2z d + 30 * Z.b2z c + 20 * Z.b2z k + 20 * Z.b2z h)%Z in
    exists s',
      annotate (Some g)
      = Some {| docker := docker g; cicd := cicd g; kubernetes := kubernetes g;
                hasStartScript := h; summary := Some s' |}
      /\ devOpsScore s' = Some score
      /\ productionReady s' = Some (h && d && c)
      /\ (riskLevel s' = Some "low" <-> (70 <= score)%Z)
      /\ (riskLevel s' = Some "medium" <-> (40 <= score < 70)%Z)
      /\ (riskLevel s' = Some "high" <-> (score < 40)%Z)
      /\ summaryRest s' = summaryRest s
      /\ scoreSummary
           {| docker := {| present := true |}; cicd := {| present := false |};
              kubernetes := {| present := true |}; hasStartScript := true;
              summary := Some s |} s
         = {| devOpsScore := Some 70%Z; productionReady := Some false;
              riskLevel := Some "low"; summaryRest := summaryRest s |}.
Proof.
  intros d c k h s g score.
  exists (scoreSummary g s).
  split; [reflexivity|].
  subst g score.
  destruct d, c, k, h; cbn;
    repeat split; intros; try reflexivity; try lia; try discriminate;
    try (exfalso; lia).
Qed.

(* ------------------------------------------------------------------ *)
(** ** The browser probe *)

Lemma not_demo_mode : forall s : Session,
  EXECUTION_MODE s <> Some "demo" ->
  match EXECUTION_MODE s with Some mode => (mode =? "demo")%string | None => false end
  = false.
Proof.
  intros s H. destruct (EXECUTION_MODE s) as [mode|]; [|reflexivity].
  apply String.eqb_neq. congruence.
Qed.

(** An exception in the navigation or in one of the two evaluations makes
    the try block fail. *)
Lemma realAudit_throws : forall s : Session,
  goto s <> None \/ evaluateTiming s <> None \/ evaluateAudit s <> None ->
  exists m, realAudit s = Rejected m.
Proof.
  intros s H. unfold realAudit, andThen, await.
  destruct (newContext s); [eauto|].
  destruct (newPage s); [eauto|].
  destruct (goto s); [eauto|].
  destruct (evaluateTiming s); [eauto|].
  destruct (evaluateAudit s); [eauto|].
  exfalso. destruct H as [H|[H|H]]; congruence.
Qed.

Lemma realAudit_completes : forall s : Session,
  newContext s = None -> newPage s = None -> goto s = None ->
  evaluateTiming s = None -> evaluateAudit s = None -> close s = None ->
  realAudit s = Resolved (finalResult (loadTime s) (auditResults (page s))).
Proof.
  intros s H1 H2 H3 H4 H5 H6. unfold realAudit.
  rewrite H1, H2, H3, H4, H5, H6. reflexivity.
Qed.

(** One unfolding of the runner. *)
Lemma runPlaywrightAudit_step : forall fuel s url force,
  runPlaywrightAudit (S fuel) s url force
  = let fallback :=
      match runPlaywrightAudit fuel s url true with
      | Some (calls, r) => Some (force :: calls, r)
      | None => None
      end in
    if match EXECUTION_MODE s with Some mode => (mode =? "demo")%string | None => false end
       || force
    then Some ([force], Resolved (mockResult (random s)))
    else match launch s with
         | Some _ => fallback
         | None =>
             match realAudit s with
             | Resolved result => Some ([force], Resolved result)
             | Rejected _ =>
                 match closeInCatch s with
                 | Some m => Some ([force], Rejected m)
                 | None => fallback
                 end
             end
         end.
Proof. reflexivity. Qed.

(** The simulated path returns at once, without a further call. *)
Lemma forced_simulation : forall fuel s url,
  runPlaywrightAudit (S fuel) s url true
  = Some ([true], Resolved (mockResult (random s))).
Proof.
  intros. rewrite runPlaywrightAudit_step. cbv zeta.
  rewrite orb_true_r. reflexivity.
Qed.

(** C3, refuted as stated: after a navigation failure the probe returns
    the synthetic audit, and that object carries no mark of being simulated. *)
Lemma fallback_result_not_flagged :
  exists result,
    runPlaywrightAudit 2 navigationTimeout "http://shop.example" false
    = Some ([false; true], Resolved result)
    /\ result = JObj [ ("performance", JNum 85); ("accessibility", JNum 90);
                       ("bestPractices", JNum 87.5); ("seo", JNum 95);
                       ("interactivity", JNum 82.5) ]
    /\ isSimulated result = false.
Proof. eexists. repeat split; vm_compute; reflexivity. Qed.

(** C3, amended: provided the [browser.close()] of the catch block does not
    throw, the browser probe always resolves; an exception in the navigation
    or in an evaluation leads to exactly one recursive call, with
    [forceSimulation] set, which returns the synthetic audit without a
    further call; that audit consists of the five scores only and carries
    no simulated flag. *)
Theorem browser_probe_falls_back_once : forall fuel s url,
  closeInCatch s = None ->
  (exists calls result,
      runPlaywrightAudit (S (S fuel)) s url false = Some (calls, Resolved result)
      /\ (calls = [false] \/ calls = [false; true]))
  /\ (EXECUTION_MODE s <> Some "demo" ->
      goto s <> None \/ evaluateTiming s <> None \/ evaluateAudit s <> None ->
      runPlaywrightAudit (S (S fuel)) s url false
      = Some ([false; true], Resolved (mockResult (random s))))
  /\ runPlaywrightAudit (S fuel) s url true
     = Some ([true], Resolved (mockResult (random s)))
  /\ (exists p a b q i,
        mockResult (random s)
        = JObj [("performance", JNum p); ("accessibility", JNum a);
                ("bestPractices", JNum b); ("seo", JNum q);
                ("interactivity", JNum i)])
  /\ isSimulated (mockResult (random s)) = false.
Proof.
  intros fuel s url Hclose.
  split; [|split; [|split; [|split]]].
  - rewrite runPlaywrightAudit_step. cbv zeta.
    rewrite forced_simulation, orb_false_r, Hclose.
    destruct (match EXECUTION_MODE s with
              | Some mode => (mode =? "demo")%string | None => false end);
      [eauto|].
    destruct (launch s); [eauto|].
    destruct (realAudit s); eauto.
  - intros Hmode Hthrow.
    rewrite runPlaywrightAudit_step. cbv zeta.
    rewrite forced_simulation, orb_false_r, Hclose, (not_demo_mode s Hmode).
    destruct (launch s); [reflexivity|].
    destruct (realAudit_throws s Hthrow) as [m ->]. reflexivity.
  - apply forced_simulation.
  - unfold mockResult. do 5 eexists. reflexivity.
  - reflexivity.
Qed.

Lemma browser_probe_falls_back_once_witness :
  closeInCatch navigationTimeout = None
  /\ runPlaywrightAudit 2 navigationTimeout "http://shop.example" false
     = Some ([false; true], Resolved (mockResult (PlaywrightRunner.random navigationTimeout))).
Proof.
  split; [reflexivity|].
  apply (browser_probe_falls_back_once 0 navigationTimeout "http://shop.example").
  - reflexivity.
  - discriminate.
  - left. discriminate.
Defined.

Lemma spec_seo_agrees : forall hasTitle hasMetaDesc : bool,
  ((getScore hasTitle + getScore hasMetaDesc) / 2)%float
  = spec_seo hasTitle hasMetaDesc.
Proof. intros [] []; vm_compute; reflexivity. Qed.

Lemma spec_bestPractices_agrees : forall isHttps : bool,
  ((getScore isHttps + 100) / 2)%float = spec_bestPractices isHttps.
Proof. intros []; reflexivity. Qed.

Lemma spec_accessibility_agrees : forall withAlt total : nat,
  (if (0 <? total)%nat then (of_nat withAlt / of_nat total * 100)%float
   else 100%float)
  = spec_accessibility withAlt total.
Proof. intros withAlt [|n]; reflexivity. Qed.

(** C9: when the browser calls all succeed outside demo mode, the probe
    returns, without any recursive call, the object whose scores are
    accessibility = (images with non-empty alt / images) x 100 (100 without
    images), seo = mean of the title and meta-description checks x 100,
    bestPractices = ((https ? 100 : 0) + 100) / 2, performance =
    max(0, 100 - loadTimeMs / 100) and interactivity =
    min(100, performance + 5), each rounded by [toFixed(0)], next to the
    measured load time; the bestPractices score is at least 50 (it is 50
    or 100) and the seo score is 0, 50 or 100. *)
Theorem real_audit_scores : forall fuel s url,
  EXECUTION_MODE s <> Some "demo" ->
  launch s = None -> newContext s = None -> newPage s = None ->
  goto s = None -> evaluateTiming s = None -> evaluateAudit s = None ->
  close s = None ->
  let total := List.length (images (page s)) in
  let withAlt :=
    List.length (filter (fun alt => negb (alt =? "")%string) (images (page s))) in
  let isHttps := (protocol (page s) =? "https:")%string in
  let performance := spec_performance (loadTime s) in
  runPlaywrightAudit (S fuel) s url false
  = Some ([false],
          Resolved
            (JObj [ ("performance",   JNum (JS.toFixed_number 0 performance));
                    ("accessibility", JNum (JS.toFixed_number 0
                                              (spec_accessibility withAlt total)));
                    ("bestPractices", JNum (JS.toFixed_number 0
                                              (spec_bestPractices isHttps)));
                    ("seo",           JNum (JS.toFixed_number 0
                                              (spec_seo (negb (title (page s) =? "")%string)
                                                        (metaDescription (page s)))));
                    ("interactivity", JNum (JS.toFixed_number 0
                                              (spec_interactivity performance)));
                    ("loadTimeMs",    JNum (loadTime s)) ]))
  /\ (50 <=? spec_bestPractices isHttps)%float = true
  /\ JS.toFixed_number 0 (spec_bestPractices isHttps)
     = (if isHttps then 100 else 50)%float
  /\ (50 <=? bestPractices (auditResults (page s)))%float = true
  /\ (forall hasTitle hasMetaDesc : bool,
        JS.toFixed_number 0 (spec_seo hasTitle hasMetaDesc)
        = (if hasTitle then if hasMetaDesc then 100 else 50
           else if hasMetaDesc then 50 else 0)%float).
Proof.
  intros fuel s url Hmode Hl Hc Hp Hg Ht Ha Hx total withAlt isHttps performance.
  split; [|split; [|split; [|split]]];
    [| | | |intros [] []; vm_compute; reflexivity].
  - rewrite runPlaywrightAudit_step. cbv zeta.
    rewrite (not_demo_mode s Hmode), Hl, (realAudit_completes s Hc Hp Hg Ht Ha Hx).
    unfold orb, finalResult, auditResults, accessibility, seo, bestPractices.
    rewrite spec_seo_agrees, spec_bestPractices_agrees, spec_accessibility_agrees.
    reflexivity.
  - destruct isHttps; reflexivity.
  - destruct isHttps; vm_compute; reflexivity.
  - unfold auditResults, bestPractices.
    destruct (protocol (page s) =? "https:")%string; reflexivity.
Qed.

Lemma real_audit_scores_witness :
  runPlaywrightAudit 1 quickHttpsPage "https://shop.example" false
  = Some ([false],
          Resolved
            (JObj [ ("performance", JNum 88); ("accessibility", JNum 50);
                    ("bestPractices", JNum 100); ("seo", JNum 100);
                    ("interactivity", JNum 93); ("loadTimeMs", JNum 1234) ])).
Proof.
  refine (eq_trans
            (proj1 (real_audit_scores 0 quickHttpsPage "https://shop.example"
                      _ eq_refl eq_refl eq_refl eq_refl eq_refl eq_refl eq_refl))
            _).
  - discriminate.
  - vm_compute. reflexivity.
Defined.

(** Floating-point rounding is part of the scores: 29 images with alt text
    out of 200 give [29 / 200 * 100 = 14.499999999999998], hence 14. *)
Example accessibility_29_of_200 :
  accessibility
    (auditResults {| images := repeat "x" 29 ++ repeat "" 171; title := "";
                     metaDescription := false; protocol := "http:" |})
  = 14.499999999999998%float
  /\ JS.toFixed_number 0 14.499999999999998 = 14%float.
Proof. split; vm_compute; reflexivity. Qed.

(* ------------------------------------------------------------------ *)
(** ** Facts about strings *)

Section StringFacts.

Lemma length_append : forall s t : string,
  String.length (s ++ t)%string = String.length s + String.length t.
Proof. induction s as [|c s IH]; intros t; cbn; [|rewrite IH]; reflexivity. Qed.

Lemma append_inv_head : forall s a b : string,
  (s ++ a = s ++ b)%string -> a = b.
Proof.
  induction s as [|c s IH]; cbn; intros a b H; [assumption|].
  injection H as H. auto.
Qed.

Lemma append_inv_tail : forall t a b : string,
  (a ++ t = b ++ t)%string -> a = b.
Proof.
  intros t a. induction a as [|c a IH]; intros [|d b] H; cbn in H.
  - reflexivity.
  - apply (f_equal String.length) in H. cbn in H. rewrite length_append in H. lia.
  - apply (f_equal String.length) in H. cbn in H. rewrite length_append in H. lia.
  - injection H as -> H. f_equal. auto.
Qed.

(** [trim] strips the no-break space like the other white space. *)
Example trim_strips_no_break_space :
  Str.trim (String (ascii_of_nat 160) (String (ascii_of_nat 9) "ok "))
  = "ok"
  /\ Str.trim (String (ascii_of_nat 160) "") = "".
Proof. split; reflexivity. Qed.

Lemma length_substring_le : forall (n : nat) (s : string),
  String.length (substring 0 n s) <= n.
Proof.
  induction n as [|n IH]; intros [|c s]; cbn; try lia.
  specialize (IH s). lia.
Qed.

Lemma of_N_inj : forall n m : N, Str.of_N n = Str.of_N m -> n = m.
Proof.
  intros n m H. apply DecimalN.Unsigned.to_uint_inj.
  assert (nonnil : forall k, N.to_uint k <> Decimal.Nil).
  { intros [|p]; [discriminate|apply DecimalPos.Unsigned.to_uint_nonnil]. }
  unfold Str.of_N in H.
  apply (f_equal DecimalString.NilZero.uint_of_string) in H.
  rewrite !DecimalString.NilZero.usu in H by apply nonnil.
  congruence.
Qed.

(** [rev_onto] keeps the characters it was given. *)
Lemma rev_onto_length : forall s acc : string,
  String.length (Str.rev_onto s acc) = String.length s + String.length acc.
Proof.
  induction s as [|c s IH]; intros acc; cbn; [reflexivity|].
  rewrite IH. cbn. lia.
Qed.

Lemma all_space_rev_onto : forall s acc : string,
  Str.all_space (Str.rev_onto s acc) = Str.all_space s && Str.all_space acc.
Proof.
  induction s as [|c s IH]; intros acc; cbn; [reflexivity|].
  rewrite IH. cbn. destruct (Str.is_space c), (Str.all_space s); reflexivity.
Qed.

Lemma trim_start_empty : forall s : string,
  Str.trim_start s = "" -> Str.all_space s = true.
Proof.
  induction s as [|c s IH]; cbn; [reflexivity|].
  destruct (Str.is_space c); [auto|discriminate].
Qed.

(** A string that starts with a visible character does not trim to the
    empty string. *)
Lemma trim_not_empty : forall (c : ascii) (s : string),
  Str.is_space c = false -> 0 < String.length (Str.trim (String c s)).
Proof.
  intros c s Hc. unfold Str.trim, Str.rev.
  cbn [Str.trim_start]. rewrite Hc.
  rewrite rev_onto_length. cbn [String.length]. rewrite Nat.add_0_r.
  destruct (Str.trim_start (Str.rev_onto (String c s) "")) eqn:E; [|cbn; lia].
  apply trim_start_empty in E. rewrite all_space_rev_onto in E. cbn in E.
  rewrite Hc in E. discriminate.
Qed.

End StringFacts.

(* ------------------------------------------------------------------ *)
(** ** The load probe *)

(** X22: on one host, two invocations write to the same summary file
    exactly when they read the same clock value. *)
Lemma resultFile_eq_iff : forall h1 h2 : K6Runner.Host,
  K6Runner.tmpdir h1 = K6Runner.tmpdir h2 ->
  (K6Runner.resultFile h1 = K6Runner.resultFile h2
   <-> K6Runner.now h1 = K6Runner.now h2).
Proof.
  intros h1 h2 Htmp. unfold K6Runner.resultFile, K6Runner.path_join.
  rewrite Htmp. split; intros H; [|rewrite H; reflexivity].
  do 3 apply append_inv_head in H.
  apply append_inv_tail in H. apply of_N_inj. assumption.
Qed.

(** C6: two load probes started in the same millisecond on one host, for
    different targets, are given the same summary file. *)
Theorem same_millisecond_same_result_file :
  let first := hostWith 1700000000000 (fun _ => exitsAfter 5200 0) in
  let second := hostWith 1700000000000 (fun _ => exitsAfter 5300 0) in
  K6Runner.resultFile first = "/tmp/k6-result-1700000000000.json"
  /\ K6Runner.resultFile second = "/tmp/k6-result-1700000000000.json"
  /\ K6Runner.cmd first "http://a.example" 200 "5s"
     <> K6Runner.cmd second "http://b.example" 200 "5s".
Proof. cbv zeta. repeat split. vm_compute. discriminate. Qed.

(** C7, refuted as stated: when the load generator never exits (and stays
    under the output cap), the probe neither resolves nor rejects, however
    short the requested duration. *)
Lemma load_run_can_hang :
  K6Runner.runK6Test (hostWith 1700000000000 (fun _ => neverExits))
    "http://shop.example" (Some loadOptions)
  = Pending.
Proof. vm_compute. reflexivity. Qed.

(** C7, amended: the load run is started with an output cap of 10 MiB and
    no time limit.  The probe settles whenever the two child processes exit
    by themselves; a run that exits with a non-zero code or exceeds the
    output cap is turned into the rejection "k6 execution failed: ...";
    a run that never exits and stays under the cap leaves the probe
    pending. *)
Theorem load_run_has_no_time_limit : forall h url options,
  let cmd := K6Runner.cmd h url (K6Runner.vusOf options)
               (K6Runner.durationOf options) in
  K6Runner.exec "k6 version" K6Runner.defaultExecOptions
    (K6Runner.run h "k6 version") <> None ->
  K6Runner.timeout K6Runner.runExecOptions = 0%N
  /\ K6Runner.maxBuffer K6Runner.runExecOptions = 10485760%N
  /\ (K6Runner.lifetime (K6Runner.run h cmd) <> None ->
      exists r, K6Runner.runK6Test h url options = Settled r)
  /\ (forall out,
        K6Runner.exec "k6 version" K6Runner.defaultExecOptions
          (K6Runner.run h "k6 version") = Some (K6Runner.ExecOk out) ->
        ((K6Runner.lifetime (K6Runner.run h cmd) <> None
          /\ K6Runner.exitCode (K6Runner.run h cmd) <> 0%Z)
         \/ (10485760 < K6Runner.outputBytes (K6Runner.run h cmd))%N ->
         exists m, K6Runner.runK6Test h url options
                   = Settled (Rejected ("k6 execution failed: " ++ m)%string))
        /\ (forall ms,
              K6Runner.lifetime (K6Runner.run h cmd) = Some ms ->
              K6Runner.exitCode (K6Runner.run h cmd) = 0%Z ->
              (K6Runner.outputBytes (K6Runner.run h cmd) <= 10485760)%N ->
              K6Runner.runK6Test h url options = Settled (K6Runner.readSummary h))
        /\ (K6Runner.lifetime (K6Runner.run h cmd) = None ->
            (K6Runner.outputBytes (K6Runner.run h cmd) <= 10485760)%N ->
            K6Runner.runK6Test h url options = Pending)).
Proof.
  intros h url options cmd Hversion.
  split; [reflexivity|]. split; [reflexivity|]. split.
  - intros Hexit. unfold K6Runner.runK6Test. fold cmd.
    destruct (K6Runner.exec "k6 version" _ _) as [[out|m]|]; [|eauto|congruence].
    unfold K6Runner.exec at 1.
    destruct (_ <? _)%N; [eauto|].
    destruct (K6Runner.lifetime (K6Runner.run h cmd)) as [ms|]; [|congruence].
    destruct (_ && _); [eauto|].
    destruct (_ =? _)%Z; eauto.
  - intros out Hout. split; [|split].
    + intros Hfail. unfold K6Runner.runK6Test. fold cmd. rewrite Hout.
      unfold K6Runner.exec.
      change (K6Runner.maxBuffer K6Runner.runExecOptions) with 10485760%N.
      change (K6Runner.timeout K6Runner.runExecOptions) with 0%N.
      destruct (N.ltb_spec 10485760 (K6Runner.outputBytes (K6Runner.run h cmd)))
        as [Hbig|Hsmall]; [eauto|].
      destruct Hfail as [[Hexit Hcode]|Hbig]; [|lia].
      destruct (K6Runner.lifetime (K6Runner.run h cmd)) as [ms|]; [|congruence].
      cbn [N.ltb N.compare andb].
      destruct (Z.eqb_spec (K6Runner.exitCode (K6Runner.run h cmd)) 0);
        [contradiction|eauto].
    + intros ms Hms Hcode Hsmall. unfold K6Runner.runK6Test. fold cmd. rewrite Hout.
      unfold K6Runner.exec. rewrite Hms, Hcode.
      change (K6Runner.maxBuffer K6Runner.runExecOptions) with 10485760%N.
      change (K6Runner.timeout K6Runner.runExecOptions) with 0%N.
      destruct (N.ltb_spec 10485760 (K6Runner.outputBytes (K6Runner.run h cmd)));
        [lia|reflexivity].
    + intros Hnever Hsmall. unfold K6Runner.runK6Test. fold cmd. rewrite Hout.
      unfold K6Runner.exec. rewrite Hnever.
      change (K6Runner.maxBuffer K6Runner.runExecOptions) with 10485760%N.
      change (K6Runner.timeout K6Runner.runExecOptions) with 0%N.
      destruct (N.ltb_spec 10485760 (K6Runner.outputBytes (K6Runner.run h cmd)));
        [lia|reflexivity].
Qed.

Lemma load_run_has_no_time_limit_witness :
  exists m,
    K6Runner.runK6Test (hostWith 1700000000000 (fun _ => exitsAfter 900000 99))
      "http://shop.example" (Some loadOptions)
    = Settled (Rejected ("k6 execution failed: " ++ m)%string).
Proof.
  refine (proj1 (proj2 (proj2 (proj2
    (load_run_has_no_time_limit
       (hostWith 1700000000000 (fun _ => exitsAfter 900000 99))
       "http://shop.example" (Some loadOptions) _)))
    "k6 v0.49.0" eq_refl) _).
  - vm_compute. discriminate.
  - left. vm_compute. split; discriminate.
Defined.

(* ------------------------------------------------------------------ *)
(** ** The context text *)

(** C5, refuted as stated: with no metrics, no repository result and no
    browser audit the context is not the bare header; the repository
    section is replaced by a notice instead of being left out. *)
Lemma absent_repository_section_not_omitted :
  context (fun _ => "") (fun _ => "") urlOnlyRequest None None None
  = ("Target under test: http://shop.example" ++ nl ++ nl
     ++ "Repository Signals: Not available (no repository provided)" ++ nl ++ nl)%string
  /\ context (fun _ => "") (fun _ => "") urlOnlyRequest None None None
     <> targetHeader urlOnlyRequest.
Proof. split; [reflexivity|vm_compute; discriminate]. Qed.

Lemma context_not_blank : forall show toFixed2 b metrics githubResult playwrightResult,
  (0 <? String.length
          (Str.trim (context show toFixed2 b metrics githubResult playwrightResult)))%nat
  = true.
Proof.
  intros. apply Nat.ltb_lt.
  unfold context, targetHeader. cbn [append].
  apply trim_not_empty. reflexivity.
Qed.

(** C5, amended: the context is the target header followed by the runtime
    metrics section, the repository section and the browser audit section,
    in this order.  The metrics and the browser sections are empty when
    their data is absent and start with their titles otherwise; the
    repository section starts with "Repository Signals" in both cases, being
    a one-line "Not available" notice when there is no repository result or
    no summary in it.  What the narrative step sends is the first 6000
    characters of this context. *)
Theorem context_sections_and_bound :
  forall show toFixed2 JSON_stringify b metrics githubResult playwrightResult m,
    let ctx := context show toFixed2 b metrics githubResult playwrightResult in
    ctx = (targetHeader b
           ++ metricsSection show toFixed2 metrics
           ++ repositorySection githubResult
           ++ browserSection show playwrightResult)%string
    /\ metricsSection show toFixed2 None = ""
    /\ (forall x, String.prefix "Runtime Metrics (Observed):"
                    (metricsSection show toFixed2 (Some x)) = true)
    /\ repositorySection None = repositoryNotAvailable
    /\ (forall d c k h,
          repositorySection
            (Some {| docker := d; cicd := c; kubernetes := k;
                     hasStartScript := h; summary := None |})
          = repositoryNotAvailable)
    /\ (forall d c k h s,
          String.prefix "Repository Signals (Static):"
            (repositorySection
               (Some {| docker := d; cicd := c; kubernetes := k;
                        hasStartScript := h; summary := Some s |})) = true)
    /\ browserSection show None = ""
    /\ (forall fields,
          String.prefix "Browser Experience Audit (External):"
            (browserSection show (Some (JObj fields))) = true)
    /\ safeContext JSON_stringify m ctx = Str.slice0 6000 ctx
    /\ String.length (safeContext JSON_stringify m ctx) <= 6000.
Proof.
  intros show toFixed2 JSON_stringify b metrics githubResult playwrightResult m ctx.
  assert (Hsafe : safeContext JSON_stringify m ctx = Str.slice0 6000 ctx).
  { unfold safeContext. subst ctx. rewrite context_not_blank. reflexivity. }
  repeat match goal with |- _ /\ _ => split end; try reflexivity.
  - exact Hsafe.
  - rewrite Hsafe. apply length_substring_le.
Qed.

(* ------------------------------------------------------------------ *)
(** ** The handler *)


Lemma catch_null_rejected : forall A (m : string),
  catch_null (@Settled A (Rejected m)) = Settled (Resolved None).
Proof. reflexivity. Qed.

Section HandlerFacts.

Variable parseK6Data : jsval -> Metrics.
Variable buildChartResponse : Metrics -> jsval.
Variable show : jsval -> string.
Variable toFixed2 : float -> string.
Variable JSON_stringify : Metrics -> string.
Variable systemPrompt : string.
Variable summaryInstructions : string.

Let handle :=
  handler parseK6Data buildChartResponse show toFixed2 JSON_stringify
    systemPrompt summaryInstructions.









End HandlerFacts.



(* ================================================================== *)
(** * Further properties *)

(* ------------------------------------------------------------------ *)
(** ** The load probe: outcomes *)

Ltac string_clash :=
  match goal with
  | H : Settled _ = Settled _ |- _ => injection H as H; string_clash
  | H : Rejected _ = Rejected _ |- _ => injection H as H; string_clash
  | H : (_ ++ _)%string = _ |- _ => cbn [append] in H; discriminate H
  | H : _ = (_ ++ _)%string |- _ => cbn [append] in H; discriminate H
  | H : _ = _ |- _ => discriminate H
  end.

Lemma readSummary_resolved : forall h v,
  K6Runner.readSummary h = Resolved v ->
  K6Runner.existsSync h (K6Runner.resultFile h) = true
  /\ K6Runner.unlinkSync h (K6Runner.resultFile h) = None
  /\ exists rawData,
       K6Runner.readFileSync h (K6Runner.resultFile h) = Resolved rawData
       /\ K6Runner.JSON_parse h rawData = Resolved v.
Proof.
  intros h v. unfold K6Runner.readSummary.
  destruct (K6Runner.existsSync h _); cbn [negb]; [|discriminate].
  destruct (K6Runner.readFileSync h _) as [rawData|]; [|discriminate].
  destruct (K6Runner.unlinkSync h _); [discriminate|].
  destruct (K6Runner.JSON_parse h rawData) as [v'|] eqn:Hparse; [|discriminate].
  intros [= <-]. eauto.
Qed.

(** X1: the load probe resolves only with the parsed content of the
    summary file of this invocation: both child processes reported no
    error, the file existed, it was read, then deleted, and its text
    parsed to the value returned. *)
Theorem load_probe_resolves_with_parsed_summary : forall h url options v,
  K6Runner.runK6Test h url options = Settled (Resolved v) ->
  let line := K6Runner.cmd h url (K6Runner.vusOf options)
                (K6Runner.durationOf options) in
  (exists out, K6Runner.exec "k6 version" K6Runner.defaultExecOptions
                 (K6Runner.run h "k6 version") = Some (K6Runner.ExecOk out))
  /\ (exists out, K6Runner.exec line K6Runner.runExecOptions (K6Runner.run h line)
                  = Some (K6Runner.ExecOk out))
  /\ K6Runner.existsSync h (K6Runner.resultFile h) = true
  /\ K6Runner.unlinkSync h (K6Runner.resultFile h) = None
  /\ exists rawData,
       K6Runner.readFileSync h (K6Runner.resultFile h) = Resolved rawData
       /\ K6Runner.JSON_parse h rawData = Resolved v.
Proof.
  intros h url options v H line. unfold K6Runner.runK6Test in H. fold line in H.
  destruct (K6Runner.exec "k6 version" _ _) as [[out|m]|]; try discriminate.
  destruct (K6Runner.exec line _ _) as [[out'|m]|]; try discriminate.
  injection H as H.
  split; [eauto|]. split; [eauto|]. apply readSummary_resolved, H.
Qed.

Lemma load_probe_resolves_with_parsed_summary_witness :
  K6Runner.existsSync healthyHost (K6Runner.resultFile healthyHost) = true
  /\ K6Runner.unlinkSync healthyHost (K6Runner.resultFile healthyHost) = None.
Proof.
  destruct (load_probe_resolves_with_parsed_summary healthyHost
              "http://shop.example" (Some loadOptions) (JObj []) eq_refl)
    as [_ [_ [Hexists [Hunlink _]]]].
  split; assumption.
Defined.

(** X2: the two fixed rejection texts identify their cause.  The probe
    rejects with the engine text exactly when [k6 version] reported an
    error, and with the missing-output text exactly when both child
    processes reported no error and the summary file does not exist. *)
Theorem load_probe_fixed_rejections : forall h url options,
  let line := K6Runner.cmd h url (K6Runner.vusOf options)
                (K6Runner.durationOf options) in
  (K6Runner.runK6Test h url options
   = Settled (Rejected
       "k6 performance engine is not installed on the server environment.")
   <-> exists m, K6Runner.exec "k6 version" K6Runner.defaultExecOptions
                   (K6Runner.run h "k6 version") = Some (K6Runner.ExecError m))
  /\ (K6Runner.runK6Test h url options
      = Settled (Rejected
          "K6 output file not found. The test may have crashed without output.")
      <-> (exists out, K6Runner.exec "k6 version" K6Runner.defaultExecOptions
                         (K6Runner.run h "k6 version") = Some (K6Runner.ExecOk out))
          /\ (exists out, K6Runner.exec line K6Runner.runExecOptions
                            (K6Runner.run h line) = Some (K6Runner.ExecOk out))
          /\ K6Runner.existsSync h (K6Runner.resultFile h) = false).
Proof.
  intros h url options line. unfold K6Runner.runK6Test. fold line.
  destruct (K6Runner.exec "k6 version" _ _) as [[out|m]|].
  - destruct (K6Runner.exec line _ _) as [[out'|m]|].
    + unfold K6Runner.readSummary.
      destruct (K6Runner.existsSync h _); cbn [negb].
      * destruct (K6Runner.readFileSync h _) as [rawData|];
          [destruct (K6Runner.unlinkSync h _);
           [|destruct (K6Runner.JSON_parse h rawData)]|];
          (split; split; intros H;
           [string_clash
           |destruct H as [? H]; discriminate H
           |string_clash
           |destruct H as [_ [_ H]]; discriminate H]).
      * split; split; intros H.
        -- string_clash.
        -- destruct H as [? H]; discriminate H.
        -- eauto.
        -- reflexivity.
    + split; split; intros H.
      * string_clash.
      * destruct H as [? H]; discriminate H.
      * string_clash.
      * destruct H as [_ [[? H] _]]; discriminate H.
    + split; split; intros H.
      * discriminate H.
      * destruct H as [? H]; discriminate H.
      * discriminate H.
      * destruct H as [_ [[? H] _]]; discriminate H.
  - split; split; intros H.
    + eauto.
    + reflexivity.
    + string_clash.
    + destruct H as [[? H] _]; discriminate H.
  - split; split; intros H.
    + discriminate H.
    + destruct H as [? H]; discriminate H.
    + discriminate H.
    + destruct H as [[? H] _]; discriminate H.
Qed.

(** The rejections issued by the callbacks of the two [exec] calls. *)
Lemma callback_rejections : forall h url options message,
  K6Runner.runK6Test h url options = Settled (Rejected message) ->
  let line := K6Runner.cmd h url (K6Runner.vusOf options)
                (K6Runner.durationOf options) in
  (message = "k6 performance engine is not installed on the server environment."
   /\ exists m, K6Runner.exec "k6 version" K6Runner.defaultExecOptions
                  (K6Runner.run h "k6 version") = Some (K6Runner.ExecError m))
  \/ (exists m, message = ("k6 execution failed: " ++ m)%string
                /\ K6Runner.exec line K6Runner.runExecOptions (K6Runner.run h line)
                   = Some (K6Runner.ExecError m))
  \/ (message = "K6 output file not found. The test may have crashed without output."
      /\ K6Runner.existsSync h (K6Runner.resultFile h) = false)
  \/ (exists m, message = ("Failed to read k6 output: " ++ m)%string
                /\ K6Runner.existsSync h (K6Runner.resultFile h) = true
                /\ (K6Runner.readFileSync h (K6Runner.resultFile h) = Rejected m
                    \/ K6Runner.unlinkSync h (K6Runner.resultFile h) = Some m
                    \/ exists rawData,
                         K6Runner.readFileSync h (K6Runner.resultFile h)
                         = Resolved rawData
                         /\ K6Runner.unlinkSync h (K6Runner.resultFile h) = None
                         /\ K6Runner.JSON_parse h rawData = Rejected m)).
Proof.
  intros h url options message H line.
  unfold K6Runner.runK6Test in H. fold line in H.
  destruct (K6Runner.exec "k6 version" _ _) as [[out|m]|] eqn:Hversion;
    [| |discriminate].
  - destruct (K6Runner.exec line _ _) as [[out'|m]|] eqn:Hrun; [| |discriminate].
    + injection H as H. unfold K6Runner.readSummary in H.
      destruct (K6Runner.existsSync h _); cbn [negb] in H.
      * do 3 right.
        destruct (K6Runner.readFileSync h _) as [rawData|m] eqn:Hread.
        -- destruct (K6Runner.unlinkSync h _) as [m|] eqn:Hunlink.
           ++ injection H as <-. exists m.
              split; [reflexivity|]. split; [reflexivity|]. right; left. reflexivity.
           ++ destruct (K6Runner.JSON_parse h rawData) as [v|m] eqn:Hparse;
                [discriminate|].
              injection H as <-. exists m.
              split; [reflexivity|]. split; [reflexivity|]. right; right.
              exists rawData. auto.
        -- injection H as <-. exists m.
           split; [reflexivity|]. split; [reflexivity|]. left. reflexivity.
      * injection H as <-. right; right; left. split; reflexivity.
    + injection H as <-. right; left. exists m. split; reflexivity.
  - injection H as <-. left. eauto.
Qed.

(** X3: every rejection of the load probe is one of five kinds, each with
    its cause: an exception thrown while the run was being set up, passed
    on as it is; the engine check failed; the load run failed (the text of
    its error follows the prefix); the summary file is missing; or reading,
    deleting or parsing the summary file threw (the text of that exception
    follows the prefix). *)
Theorem load_probe_rejection_kinds : forall thrown h url options message,
  K6Runner.executor thrown h url options = Settled (Rejected message) ->
  let line := K6Runner.cmd h url (K6Runner.vusOf options)
                (K6Runner.durationOf options) in
  thrown = Some message
  \/ (thrown = None
      /\ ((message = "k6 performance engine is not installed on the server environment."
           /\ exists m, K6Runner.exec "k6 version" K6Runner.defaultExecOptions
                          (K6Runner.run h "k6 version") = Some (K6Runner.ExecError m))
          \/ (exists m, message = ("k6 execution failed: " ++ m)%string
                        /\ K6Runner.exec line K6Runner.runExecOptions
                             (K6Runner.run h line)
                           = Some (K6Runner.ExecError m))
          \/ (message
               = "K6 output file not found. The test may have crashed without output."
              /\ K6Runner.existsSync h (K6Runner.resultFile h) = false)
          \/ (exists m, message = ("Failed to read k6 output: " ++ m)%string
                        /\ K6Runner.existsSync h (K6Runner.resultFile h) = true
                        /\ (K6Runner.readFileSync h (K6Runner.resultFile h)
                            = Rejected m
                            \/ K6Runner.unlinkSync h (K6Runner.resultFile h) = Some m
                            \/ exists rawData,
                                 K6Runner.readFileSync h (K6Runner.resultFile h)
                                 = Resolved rawData
                                 /\ K6Runner.unlinkSync h (K6Runner.resultFile h)
                                    = None
                                 /\ K6Runner.JSON_parse h rawData = Rejected m)))).
Proof.
  intros [err|] h url options message H line; unfold K6Runner.executor in H.
  - left. injection H as ->. reflexivity.
  - right. split; [reflexivity|]. exact (callback_rejections h url options message H).
Qed.

Lemma load_probe_rejection_kinds_witness :
  (exists m,
     K6Runner.exec "k6 version" K6Runner.defaultExecOptions
       (K6Runner.run hostWithoutK6 "k6 version") = Some (K6Runner.ExecError m))
  /\ Some "ENOENT: no such file or directory, uv_cwd"
     = Some "ENOENT: no such file or directory, uv_cwd".
Proof.
  split.
  - destruct (load_probe_rejection_kinds None hostWithoutK6 "http://shop.example"
                (Some loadOptions)
                "k6 performance engine is not installed on the server environment."
                eq_refl)
      as [H|[_ [[_ H]|[[m [H _]]|[[H _]|[m [H _]]]]]]].
    + discriminate H.
    + exact H.
    + cbn [append] in H. discriminate H.
    + discriminate H.
    + cbn [append] in H. discriminate H.
  - destruct (load_probe_rejection_kinds
                (Some "ENOENT: no such file or directory, uv_cwd")
                healthyHost "http://shop.example" (Some loadOptions)
                "ENOENT: no such file or directory, uv_cwd" eq_refl)
      as [H|[H _]].
    + exact H.
    + discriminate H.
Defined.

Lemma resultFile_eq_iff_witness :
  K6Runner.resultFile (hostWith 1700000000000 (fun _ => exitsAfter 5200 0))
  = K6Runner.resultFile (hostWith 1700000000001 (fun _ => exitsAfter 5200 0))
  <-> 1700000000000%N = 1700000000001%N.
Proof.
  apply (resultFile_eq_iff
           (hostWith 1700000000000 (fun _ => exitsAfter 5200 0))
           (hostWith 1700000000001 (fun _ => exitsAfter 5200 0))).
  reflexivity.
Defined.

(* ------------------------------------------------------------------ *)
(** ** The browser probe: outcomes *)

Lemma demo_mode_iff : forall s : Session,
  match EXECUTION_MODE s with Some mode => (mode =? "demo")%string | None => false end
  = false
  <-> EXECUTION_MODE s <> Some "demo".
Proof.
  intros s. split; [|apply not_demo_mode].
  destruct (EXECUTION_MODE s) as [mode|]; [|discriminate].
  intros H [= ->]. discriminate H.
Qed.

(** The runner with two levels of fuel, case by case. *)
Lemma runPlaywrightAudit_two : forall fuel s url,
  runPlaywrightAudit (S (S fuel)) s url false
  = if match EXECUTION_MODE s with
       | Some mode => (mode =? "demo")%string | None => false end
    then Some ([false], Resolved (mockResult (random s)))
    else match launch s with
         | Some _ => Some ([false; true], Resolved (mockResult (random s)))
         | None =>
             match realAudit s with
             | Resolved result => Some ([false], Resolved result)
             | Rejected _ =>
                 match closeInCatch s with
                 | Some m => Some ([false], Rejected m)
                 | None => Some ([false; true], Resolved (mockResult (random s)))
                 end
             end
         end.
Proof.
  intros. rewrite runPlaywrightAudit_step. cbv zeta.
  rewrite forced_simulation, orb_false_r. reflexivity.
Qed.

(** X4: the recursion of the browser probe is at most one call deep: two
    levels of fuel always give a result, and more fuel gives the same one. *)
Theorem browser_probe_depth : forall fuel s url forceSimulation,
  runPlaywrightAudit (S (S fuel)) s url forceSimulation
  = runPlaywrightAudit 2 s url forceSimulation
  /\ runPlaywrightAudit 2 s url forceSimulation <> None.
Proof.
  intros fuel s url [|].
  - rewrite !forced_simulation. split; [reflexivity|discriminate].
  - rewrite !runPlaywrightAudit_two.
    split; [reflexivity|].
    destruct (match EXECUTION_MODE s with
              | Some mode => (mode =? "demo")%string | None => false end);
      [discriminate|].
    destruct (launch s); [discriminate|].
    destruct (realAudit s); [discriminate|].
    destruct (closeInCatch s); discriminate.
Qed.

(** X5: the browser probe rejects in one situation only: outside demo
    mode, after a successful launch, when a call of the try block threw and
    the [browser.close()] of the catch block threw as well; it then rejects
    with the exception of that second [close], without a recursive call. *)
Theorem browser_probe_rejects_iff : forall fuel s url calls m,
  runPlaywrightAudit (S (S fuel)) s url false = Some (calls, Rejected m)
  <-> (calls = [false]
       /\ EXECUTION_MODE s <> Some "demo"
       /\ launch s = None
       /\ (exists e, realAudit s = Rejected e)
       /\ closeInCatch s = Some m).
Proof.
  intros fuel s url calls m. rewrite runPlaywrightAudit_two.
  rewrite <- demo_mode_iff.
  destruct (match EXECUTION_MODE s with
            | Some mode => (mode =? "demo")%string | None => false end).
  - split; [discriminate|]. intros [_ [H _]]. discriminate H.
  - destruct (launch s).
    + split; [discriminate|]. intros [_ [_ [H _]]]. discriminate H.
    + destruct (realAudit s) as [r|e].
      * split; [discriminate|]. intros [_ [_ [_ [[e H] _]]]]. discriminate H.
      * destruct (closeInCatch s) as [m'|].
        -- split.
           ++ intros [= <- <-]. eauto 7.
           ++ intros [-> [_ [_ [_ [= ->]]]]]. reflexivity.
        -- split; [discriminate|]. intros [_ [_ [_ [_ H]]]]. discriminate H.
Qed.

(** X6: an audit the probe resolves with is either the real one, which
    carries the measured [loadTimeMs], or the simulated one, which has no
    [loadTimeMs]; the real one is returned only when no call of the try
    block threw, and never after a recursive call. *)
Theorem resolved_audit_real_or_simulated : forall fuel s url calls result,
  runPlaywrightAudit (S (S fuel)) s url false = Some (calls, Resolved result) ->
  (result = finalResult (loadTime s) (auditResults (page s))
   /\ get result "loadTimeMs" = JNum (loadTime s)
   /\ calls = [false]
   /\ launch s = None /\ newContext s = None /\ newPage s = None
   /\ goto s = None /\ evaluateTiming s = None /\ evaluateAudit s = None
   /\ close s = None)
  \/ (result = mockResult (random s)
      /\ get result "loadTimeMs" = JUndefined).
Proof.
  intros fuel s url calls result. rewrite runPlaywrightAudit_two.
  destruct (match EXECUTION_MODE s with
            | Some mode => (mode =? "demo")%string | None => false end).
  { intros [= <- <-]. right. split; reflexivity. }
  destruct (launch s) eqn:Hlaunch.
  { intros [= <- <-]. right. split; reflexivity. }
  destruct (realAudit s) as [r|e] eqn:Hreal.
  - intros [= <- <-]. left.
    unfold realAudit, andThen, await in Hreal.
    destruct (newContext s); [discriminate|].
    destruct (newPage s); [discriminate|].
    destruct (goto s); [discriminate|].
    destruct (evaluateTiming s); [discriminate|].
    destruct (evaluateAudit s); [discriminate|].
    destruct (close s); [discriminate|].
    injection Hreal as <-. repeat split; reflexivity.
  - destruct (closeInCatch s); [discriminate|].
    intros [= <- <-]. right. split; reflexivity.
Qed.

Lemma resolved_audit_real_or_simulated_witness :
  get (JObj [ ("performance", JNum 88); ("accessibility", JNum 50);
              ("bestPractices", JNum 100); ("seo", JNum 100);
              ("interactivity", JNum 93); ("loadTimeMs", JNum 1234) ])
      "loadTimeMs"
  = JNum (loadTime quickHttpsPage).
Proof.
  destruct (resolved_audit_real_or_simulated 0 quickHttpsPage
              "https://shop.example" [false]
              (JObj [ ("performance", JNum 88); ("accessibility", JNum 50);
                      ("bestPractices", JNum 100); ("seo", JNum 100);
                      ("interactivity", JNum 93); ("loadTimeMs", JNum 1234) ])
              eq_refl)
    as [[_ [H _]]|[H _]].
  - exact H.
  - vm_compute in H. discriminate H.
Defined.

(** X7: when the audit itself completes but the [browser.close()] that ends
    the try block throws, the computed scores are dropped: the catch block
    closes the browser again and the probe answers with the simulated
    audit, or rejects if that second [close] throws too. *)
Theorem close_failure_discards_real_audit : forall fuel s url m,
  EXECUTION_MODE s <> Some "demo" ->
  launch s = None -> newContext s = None -> newPage s = None ->
  goto s = None -> evaluateTiming s = None -> evaluateAudit s = None ->
  close s = Some m ->
  runPlaywrightAudit (S (S fuel)) s url false
  = match closeInCatch s with
    | None => Some ([false; true], Resolved (mockResult (random s)))
    | Some m' => Some ([false], Rejected m')
    end.
Proof.
  intros fuel s url m Hmode Hl Hc Hp Hg Ht Ha Hx.
  rewrite runPlaywrightAudit_two, (not_demo_mode s Hmode), Hl.
  unfold realAudit. rewrite Hc, Hp, Hg, Ht, Ha, Hx. reflexivity.
Qed.

Lemma close_failure_discards_real_audit_witness :
  runPlaywrightAudit 2 closeFailsAtEnd "https://shop.example" false
  = Some ([false; true],
          Resolved (mockResult (PlaywrightRunner.random closeFailsAtEnd)))
  /\ runPlaywrightAudit 2 closeFailsTwice "https://shop.example" false
     = Some ([false], Rejected "browser.close: Target closed").
Proof.
  split.
  - refine (close_failure_discards_real_audit 0 closeFailsAtEnd
              "https://shop.example" "browser.close: Target closed"
              _ eq_refl eq_refl eq_refl eq_refl eq_refl eq_refl eq_refl).
    discriminate.
  - refine (close_failure_discards_real_audit 0 closeFailsTwice
              "https://shop.example" "browser.close: Target closed"
              _ eq_refl eq_refl eq_refl eq_refl eq_refl eq_refl eq_refl).
    discriminate.
Defined.

(* ------------------------------------------------------------------ *)
(** ** Repository summary: invariants *)

(** X8: the three summary fields are consistent with each other: the score
    is a multiple of ten between 0 and 100; a production-ready repository
    scores at least 80 and is rated "low"; a "high" rating excludes
    production readiness; and the rating is one of the three levels. *)
Theorem summary_fields_consistent : forall (g : Github) (s : Summary),
  exists score ready level,
    devOpsScore (scoreSummary g s) = Some score
    /\ productionReady (scoreSummary g s) = Some ready
    /\ riskLevel (scoreSummary g s) = Some level
    /\ (0 <= score <= 100)%Z
    /\ (score mod 10 = 0)%Z
    /\ (level = "low" \/ level = "medium" \/ level = "high")
    /\ (ready = true -> (80 <= score)%Z /\ level = "low")
    /\ (level = "high" -> ready = false)
    /\ (score = 100%Z <-> present (docker g) = true /\ present (cicd g) = true
                          /\ present (kubernetes g) = true
                          /\ hasStartScript g = true).
Proof.
  intros [[d] [c] [k] h sm] s.
  destruct d, c, k, h; cbn; do 3 eexists;
    (split; [reflexivity|]); (split; [reflexivity|]); (split; [reflexivity|]);
    (split; [lia|]); (split; [reflexivity|]);
    (split; [auto|]);
    (split; [intros H; first [discriminate H|split; [lia|reflexivity]]|]);
    (split; [intros H; first [discriminate H|reflexivity]|]);
    (split; [intros H; first [discriminate H|auto]
            |intros [H1 [H2 [H3 H4]]]; first [discriminate|reflexivity]]).
Qed.

(** X9: updating the summary is idempotent and touches nothing else: a
    second update leaves the repository result as the first one made it,
    the four signals are those of the input, and a missing result or a
    missing summary stays missing. *)
Theorem annotate_idempotent : forall githubResult : option Github,
  annotate (annotate githubResult) = annotate githubResult
  /\ option_map docker (annotate githubResult) = option_map docker githubResult
  /\ option_map cicd (annotate githubResult) = option_map cicd githubResult
  /\ option_map kubernetes (annotate githubResult)
     = option_map kubernetes githubResult
  /\ option_map hasStartScript (annotate githubResult)
     = option_map hasStartScript githubResult
  /\ option_map (fun g => match summary g with Some _ => true | None => false end)
       (annotate githubResult)
     = option_map (fun g => match summary g with Some _ => true | None => false end)
         githubResult.
Proof.
  intros [[d c k h [s|]]|]; cbn; repeat split.
Qed.

(* ------------------------------------------------------------------ *)
(** ** Business metrics: remediations and missing values *)

(** X10: whatever the metrics and the repository result are, the
    remediation list is the fixed list of four texts with some of them left
    out, so it has at most four items in a fixed order; the repository
    result decides on the CI/CD item only and does not touch the four
    scores. *)
Theorem remediations_in_fixed_order :
  forall (metrics : option Metrics) (githubResult : option Github),
    let r := businessMetrics metrics githubResult in
    subseq (remediations r) allRemediations = true
    /\ List.length (remediations r) <= 4
    /\ remediations r
       = remediations (businessMetrics metrics None)
         ++ match githubResult with
            | Some g => if present (cicd g) then [] else [cicdRemediation]
            | None => []
            end
    /\ conversionLoss r = conversionLoss (businessMetrics metrics None)
    /\ adSpendRisk r = adSpendRisk (businessMetrics metrics None)
    /\ stabilityRiskScore r = stabilityRiskScore (businessMetrics metrics None)
    /\ collapsePoint r = collapsePoint (businessMetrics metrics None).
Proof.
  intros [m|] [[d [c] k h s]|]; unfold businessMetrics;
    try destruct c;
    try destruct (500 <? latency_p95 m)%float;
    try destruct (throughput m <? 100)%float;
    try destruct (0 <? serverErrorRate m)%float;
    cbn [present cicd negb app List.length remediations conversionLoss
         adSpendRisk stabilityRiskScore collapsePoint];
    repeat split; try reflexivity; try lia.
Qed.

Lemma sub_nan_is_nan : forall x : float, is_nan (x - nan)%float = true.
Proof.
  intros x. unfold is_nan. rewrite FloatAxioms.eqb_spec, FloatAxioms.sub_spec.
  change (Prim2SF nan) with S754_nan.
  destruct (Prim2SF x); reflexivity.
Qed.

(** X11: when the metrics carry no latency block, the conversion loss
    falls back to 0, but the stability score is NaN whatever the failure
    rate is, and the CDN remediation is never proposed. *)
Theorem missing_latency_scores :
  forall (t f e v : float) (githubResult : option Github),
    let r := businessMetrics
               (Some {| latency := None; throughput := t;
                        failureRateUnderTest := f; serverErrorRate := e;
                        vus := v |})
               githubResult in
    conversionLoss r = 0%float
    /\ stabilityRiskScore r = nan
    /\ ~ In cdnRemediation (remediations r).
Proof.
  intros t f e v githubResult r.
  assert (Hnan : JS.Math_max 0 (100 - f * 500 - nan / 20)%float = nan).
  { unfold JS.Math_max. change (nan / 20)%float with nan.
    rewrite sub_nan_is_nan, orb_true_r. reflexivity. }
  subst r. destruct githubResult as [[d [c] k h s]|]; unfold businessMetrics;
    cbn [present cicd negb latency_p95 latency_avg latency failureRateUnderTest
         throughput serverErrorRate];
    try destruct c;
    cbn [conversionLoss stabilityRiskScore remediations];
    (split; [reflexivity|]); (split; [exact Hnan|]);
    change (500 <? nan)%float with false; cbn [app];
    destruct (t <? 100)%float, (0 <? e)%float; cbn [app In];
    unfold cdnRemediation, redisRemediation, autoScaleRemediation, cicdRemediation;
    intros H; repeat (destruct H as [H|H]; [discriminate H|]); exact H.
Qed.

(* ------------------------------------------------------------------ *)
(** ** Context and narrative *)

Lemma substring_whole : forall (n : nat) (s : string),
  String.length s <= n -> substring 0 n s = s.
Proof.
  induction n as [|n IH]; intros [|c s] H; cbn in *; try reflexivity; try lia.
  rewrite IH by lia. reflexivity.
Qed.

Lemma prefix_substring : forall (n : nat) (s : string),
  String.prefix (substring 0 n s) s = true.
Proof.
  induction n as [|n IH]; intros [|c s]; cbn; try reflexivity.
  destruct (ascii_dec c c); [apply IH|congruence].
Qed.

Lemma length_substring_min : forall (n : nat) (s : string),
  String.length (substring 0 n s) = Nat.min n (String.length s).
Proof.
  induction n as [|n IH]; intros [|c s]; cbn [substring String.length];
    try reflexivity.
  rewrite IH. reflexivity.
Qed.

(** X12: the narrative step cuts the context at the end only: what it
    hands over is always a prefix of the context, of length
    min(6000, length), and a context of at most 6000 characters is handed
    over unchanged. *)
Theorem context_truncation :
  forall show toFixed2 JSON_stringify b metrics githubResult playwrightResult m,
    let ctx := context show toFixed2 b metrics githubResult playwrightResult in
    String.prefix (safeContext JSON_stringify m ctx) ctx = true
    /\ String.length (safeContext JSON_stringify m ctx)
       = Nat.min 6000 (String.length ctx)
    /\ safeContext JSON_stringify m ctx
       = (if (String.length ctx <=? 6000)%nat then ctx else Str.slice0 6000 ctx).
Proof.
  intros show toFixed2 JSON_stringify b metrics githubResult playwrightResult m ctx.
  assert (Hsafe : safeContext JSON_stringify m ctx = Str.slice0 6000 ctx).
  { unfold safeContext. subst ctx. rewrite context_not_blank. reflexivity. }
  rewrite Hsafe. unfold Str.slice0.
  split; [apply prefix_substring|]. split; [apply length_substring_min|].
  destruct (Nat.leb_spec (String.length ctx) 6000) as [Hshort|Hlong];
    [apply substring_whole; assumption|reflexivity].
Qed.


(* ------------------------------------------------------------------ *)
(** ** The handler: responses *)



Lemma all3_resolved : forall A B C (a : promise A) (b : promise B)
    (c : promise C) x y z,
  all3 a b c = Settled (Resolved (x, y, z)) ->
  a = Settled (Resolved x) /\ b = Settled (Resolved y) /\ c = Settled (Resolved z).
Proof.
  intros A B C [[x'|e1]|] [[y'|e2]|] [[z'|e3]|] x y z H; cbn in H;
    try discriminate H.
  injection H as -> -> ->. auto.
Qed.

Section HandlerOutcomes.

Variable parseK6Data : jsval -> Metrics.
Variable buildChartResponse : Metrics -> jsval.
Variable show : jsval -> string.
Variable toFixed2 : float -> string.
Variable JSON_stringify : Metrics -> string.
Variable systemPrompt : string.
Variable summaryInstructions : string.

Let handle :=
  handler parseK6Data buildChartResponse show toFixed2 JSON_stringify
    systemPrompt summaryInstructions.


(** What a 200 response tells about the run that produced it. *)
Lemma handler_success_inv : forall w b payload,
  handle w b = Some (Success payload) ->
  given (testURL b) || given (githubRepo b) = true
  /\ (exists testResult,
        loadProbe w b = Settled (Resolved testResult)
        /\ metrics payload
           = match testResult with
             | Some r => if truthy r then Some (parseK6Data r) else None
             | None => None
             end)
  /\ (exists githubResult,
        repositoryProbe w b = Settled (Resolved githubResult)
        /\ github payload = annotate githubResult)
  /\ browserProbe w b = Settled (Resolved (browserMetrics payload))
  /\ charts payload = option_map buildChartResponse (metrics payload)
  /\ runLiveAuditAI JSON_stringify systemPrompt summaryInstructions
       (metrics payload)
       (context show toFixed2 b (metrics payload) (github payload)
          (browserMetrics payload))
       (getresponseopenrouter w)
     = Settled (Resolved (ai_message payload))
  /\ save w {| doc_url := target b;
               doc_metrics := metrics payload;
               doc_browserMetrics := browserMetrics payload;
               doc_charts := charts payload;
               doc_github := github payload;
               doc_ai_message := ai_message payload;
               doc_ai_businessInsights :=
                 businessMetrics (metrics payload) (github payload);
               doc_chatHistory := [("bot", ai_message payload)] |}
     = Settled (Resolved (id payload)).
Proof.
  intros w b payload H. unfold handle, handler in H.
  destruct (negb (given (testURL b)) && negb (given (githubRepo b))) eqn:Hvalid;
    [discriminate H|].
  destruct (all3 _ _ _) as [[[[t g] p]|m]|] eqn:Hall; [|discriminate H|discriminate H].
  apply all3_resolved in Hall. destruct Hall as [Ht [Hg Hp]].
  cbv zeta in H.
  destruct (runLiveAuditAI _ _ _ _ _ _) as [[message|e]|] eqn:Hai;
    [|discriminate H|discriminate H].
  destruct (save w _) as [[sessionId|e]|] eqn:Hsave;
    [|discriminate H|discriminate H].
  injection H as <-. cbn [metrics github browserMetrics charts ai_message id].
  split.
  { destruct (given (testURL b)), (given (githubRepo b)); cbn in *; congruence. }
  split; [eauto|]. split; [eauto|]. auto.
Qed.




(** X14: the handler answers 400 exactly when the body names neither a
    URL nor a repository (a missing or empty string), always with the same
    text and whatever the probes, the narrative service and the database
    would do. *)
Theorem bad_request_iff : forall (w : World) (b : Body) (e : string),
  handle w b = Some (BadRequest e)
  <-> (given (testURL b) = false /\ given (githubRepo b) = false
       /\ e = "Provide testURL or githubRepo").
Proof.
  intros w b e. unfold handle, handler.
  destruct (given (testURL b)), (given (githubRepo b)); cbn [negb andb];
    try (split; [|intros [H1 [H2 _]]; discriminate]);
    try (split; [intros [= <-]; auto|intros [_ [_ ->]]; reflexivity]);
    destruct (all3 _ _ _) as [[[[t g] p]|m]|]; try discriminate;
    cbv zeta;
    destruct (runLiveAuditAI _ _ _ _ _ _) as [[message|m]|]; try discriminate;
    destruct (save w _) as [[sessionId|m]|]; discriminate.
Qed.

(** X16: a request without a URL starts neither the load probe nor the
    browser probe and does not ask the narrative service: the response is
    the same for any two worlds that share the repository analysis and the
    database, and a 200 response has null metrics, charts and browser
    audit and the fixed no-metrics message. *)
Theorem request_without_url : forall (w w' : World) (b : Body),
  given (testURL b) = false ->
  analyzeGithubRepo w' = analyzeGithubRepo w ->
  save w' = save w ->
  handle w' b = handle w b
  /\ match handle w b with
     | Some (Success payload) =>
         metrics payload = None /\ charts payload = None
         /\ browserMetrics payload = None
         /\ ai_message payload = noMetricsMessage
     | _ => True
     end.
Proof.
  intros w w' b Hurl Hgh Hsave.
  assert (Hload : forall v, loadProbe v b = Settled (Resolved None)).
  { intros v. unfold loadProbe. destruct (testURL b); [rewrite Hurl|]; reflexivity. }
  assert (Hbrowser : forall v, browserProbe v b = Settled (Resolved None)).
  { intros v. unfold browserProbe. destruct (testURL b); [rewrite Hurl|]; reflexivity. }
  assert (Hrepo : repositoryProbe w' b = repositoryProbe w b).
  { unfold repositoryProbe. rewrite Hgh. reflexivity. }
  unfold handle, handler.
  rewrite !Hload, !Hbrowser, Hrepo, Hsave.
  destruct (negb (given (testURL b)) && negb (given (githubRepo b)));
    [split; [reflexivity|exact I]|].
  destruct (repositoryProbe w b) as [[g|m]|]; cbn [all3];
    [|split; [reflexivity|exact I]|split; [reflexivity|exact I]].
  cbv zeta. cbn [runLiveAuditAI option_map].
  destruct (save w _) as [[sessionId|m]|]; split; try reflexivity; try exact I.
  cbn. auto.
Qed.

(** X17: a 200 response describes what was stored: the session document
    saved under the returned id has the target as its url, the metrics,
    browser audit, charts and repository result of the response, the same
    message (also as the single bot entry of the chat history), and in
    addition the business metrics computed from these metrics and this
    repository result; charts are present exactly when metrics are. *)
Theorem stored_session_matches_response :
  forall (w : World) (b : Body) (payload : Payload),
    handle w b = Some (Success payload) ->
    save w (sessionDocument b payload) = Settled (Resolved (id payload))
    /\ charts payload = option_map buildChartResponse (metrics payload)
    /\ target b <> "".
Proof.
  intros w b payload H.
  destruct (handler_success_inv w b payload H)
    as [Hvalid [_ [_ [_ [Hcharts [_ Hsave]]]]]].
  split; [exact Hsave|]. split; [exact Hcharts|].
  unfold target, given in *.
  destruct (testURL b) as [u|], (githubRepo b) as [r|]; cbn in Hvalid;
    try destruct (String.eqb_spec u ""); try destruct (String.eqb_spec r "");
    cbn in Hvalid; try discriminate Hvalid; try assumption; discriminate.
Qed.

(** X18: what a successful POST returns can be fetched again: if the
    database gives back the stored session under the id it was saved
    under, then
    [GET /:id] with the id of the response returns a report with the same
    metrics, browser audit, charts, repository result and message, plus
    the stored business metrics and the verdict "Passed"; so does
    [GET /latest] for a user whose last session is this id, provided the
    id is non-empty and passes the ObjectId check. *)
Theorem report_of_stored_session :
  forall (w : World) (db : Database) (b : Body) (payload : Payload),
    handle w b = Some (Success payload) ->
    (forall sessionId,
        save w (sessionDocument b payload) = Settled (Resolved sessionId) ->
        findById db sessionId
        = Settled (Resolved (Some {| session_id := sessionId;
                                     session_doc := sessionDocument b payload |}))) ->
    exists r,
      getById db (id payload) = Some (Found r)
      /\ report_id r = id payload
      /\ report_url r = target b
      /\ report_metrics r = metrics payload
      /\ report_browserMetrics r = browserMetrics payload
      /\ report_charts r = charts payload
      /\ report_github r = github payload
      /\ report_ai_message r = ai_message payload
      /\ report_ai_businessInsights r
         = businessMetrics (metrics payload) (github payload)
      /\ aiVerdict r = "Passed"
      /\ (given (Some (id payload)) && isValidObjectId db (id payload) = true ->
          getLatest db (Some {| lastSessionId := Some (id payload) |})
          = Some (Found r)).
Proof.
  intros w db b payload H Hdb.
  destruct (handler_success_inv w b payload H) as [_ [_ [_ [_ [_ [_ Hsave]]]]]].
  apply Hdb in Hsave.
  eexists. unfold getById. rewrite Hsave.
  split; [reflexivity|]. cbn. repeat split.
  intros Hok. apply andb_true_iff in Hok. destruct Hok as [Hgiven Hvalid].
  unfold getLatest. cbn [lastSessionId]. rewrite Hgiven, Hvalid, Hsave. reflexivity.
Qed.

End HandlerOutcomes.

Lemma request_without_url_witness :
  handlerWithStubs
    (server hostWithoutK6 navigationTimeout
       (fun _ => Settled (Resolved repositoryWithoutCicd))
       (fun _ => Pending)
       (fun _ => Settled (Resolved "65f0c0ffee65f0c0ffee65f0")))
    repositoryOnlyRequest
  = handlerWithStubs healthyServer repositoryOnlyRequest.
Proof.
  exact (proj1 (request_without_url
                  (fun _ => scenario1) (fun _ => JNull) (fun _ => "n")
                  (fun _ => "p") (fun _ => "{}") "system" "instructions"
                  healthyServer
                  (server hostWithoutK6 navigationTimeout
                     (fun _ => Settled (Resolved repositoryWithoutCicd))
                     (fun _ => Pending)
                     (fun _ => Settled (Resolved "65f0c0ffee65f0c0ffee65f0")))
                  repositoryOnlyRequest eq_refl eq_refl eq_refl)).
Defined.

(** The response of [healthyServer] to [bothTargetsRequest]. *)
Lemma healthy_response :
  handlerWithStubs healthyServer bothTargetsRequest
  = Some (Success
            {| id := "65f0c0ffee65f0c0ffee65f0";
               metrics := doc_metrics storedDocument;
               browserMetrics := doc_browserMetrics storedDocument;
               charts := doc_charts storedDocument;
               github := doc_github storedDocument;
               ai_message := doc_ai_message storedDocument |}).
Proof. vm_compute. reflexivity. Qed.


Lemma stored_session_matches_response_witness :
  save healthyServer storedDocument
  = Settled (Resolved "65f0c0ffee65f0c0ffee65f0").
Proof.
  exact (proj1 (stored_session_matches_response
                  (fun _ => scenario1) (fun _ => JNull) (fun _ => "n")
                  (fun _ => "p") (fun _ => "{}") "system" "instructions"
                  healthyServer bothTargetsRequest _ healthy_response)).
Defined.

Lemma report_of_stored_session_witness :
  exists r,
    getById oneSessionDatabase "65f0c0ffee65f0c0ffee65f0" = Some (Found r)
    /\ report_metrics r = Some scenario1.
Proof.
  destruct (report_of_stored_session
              (fun _ => scenario1) (fun _ => JNull) (fun _ => "n")
              (fun _ => "p") (fun _ => "{}") "system" "instructions"
              healthyServer oneSessionDatabase bothTargetsRequest _
              healthy_response)
    as [r [Hget [_ [_ [Hmetrics _]]]]].
  - intros sessionId [= <-]. reflexivity.
  - exists r. split; [exact Hget|exact Hmetrics].
Defined.

(* ------------------------------------------------------------------ *)
(** ** The GET routes *)

(** X19: [GET /latest] returns a report exactly when the request has a
    user whose last session id is non-empty and passes the ObjectId check
    and [GET /:id] returns that report for this id; an id that fails the
    check is answered 404 without the database being asked. *)
Theorem latest_report_iff : forall (db : Database) (user : option User) (r : Report),
  (getLatest db user = Some (Found r)
   <-> exists sessionId,
         user = Some {| lastSessionId := Some sessionId |}
         /\ sessionId <> ""
         /\ isValidObjectId db sessionId = true
         /\ getById db sessionId = Some (Found r))
  /\ (forall sessionId find,
        getLatest {| findById := find; isValidObjectId := fun _ => false |}
          (Some {| lastSessionId := Some sessionId |})
        = Some (NotFound
                  (if (sessionId =? "")%string then "No test history found"
                   else "Previous test data incompatible/missing. Run a new test."))).
Proof.
  intros db user r. split.
  - split.
    + intros H. unfold getLatest in H.
      destruct user as [[[sessionId|]]|]; try discriminate H.
      cbn [lastSessionId given] in H.
      destruct (String.eqb_spec sessionId "") as [|Hne]; cbn [negb] in H;
        [discriminate H|].
      destruct (isValidObjectId db sessionId) eqn:Hvalid; cbn [negb] in H;
        [|discriminate H].
      exists sessionId. repeat split; try assumption.
      unfold getById.
      destruct (findById db sessionId) as [[[session|]|e]|]; try discriminate H.
      exact H.
    + intros [sessionId [-> [Hne [Hvalid Hget]]]].
      unfold getLatest. cbn [lastSessionId given].
      destruct (String.eqb_spec sessionId ""); [contradiction|].
      cbn [negb]. rewrite Hvalid. cbn [negb].
      unfold getById in Hget.
      destruct (findById db sessionId) as [[[session|]|e]|]; try discriminate Hget.
      exact Hget.
  - intros sessionId find. unfold getLatest. cbn [lastSessionId given isValidObjectId].
    destruct (sessionId =? "")%string; reflexivity.
Qed.

(* ------------------------------------------------------------------ *)
(** ** The command line *)

Lemma append_assoc : forall a b c : string,
  ((a ++ b) ++ c = a ++ (b ++ c))%string.
Proof. induction a as [|x a IH]; intros; cbn; [|rewrite IH]; reflexivity. Qed.

(** X21: the load probe does not escape the URL: a double quote inside it
    ends the quoted argument of the command line, so the text that follows
    the quote stands outside any quotes, between the URL argument and an
    empty quoted word. *)
Theorem url_is_not_escaped :
  forall (h : K6Runner.Host) (u t : string) (vus : N) (duration : string),
    let dq := String (ascii_of_nat 34) "" in
    K6Runner.cmd h (u ++ dq ++ t ++ dq) vus duration
    = ("k6 run --summary-export=" ++ K6Runner.quoted (K6Runner.resultFile h)
       ++ " --env TARGET_URL=" ++ K6Runner.quoted u
       ++ t ++ K6Runner.quoted ""
       ++ " --env VUS=" ++ K6Runner.quoted (Str.of_N vus)
       ++ " --env DURATION=" ++ K6Runner.quoted duration
       ++ " " ++ K6Runner.quoted (K6Runner.scriptPath h))%string.
Proof.
  intros h u t vus duration dq. unfold K6Runner.cmd.
  do 3 f_equal.
  unfold K6Runner.quoted, dq.
  repeat (rewrite ?append_assoc; cbn [append]).
  reflexivity.
Qed.
